(** * Spike detection (spiketoolkit/sortingcomponents/detection.py)

    A shallow embedding of [detect_spikes] and of its per-channel worker
    [_detect_and_align_peaks_single_channel].

    Conventions of the embedding:
    - samples, thresholds and the (possibly fractional) time axis are exact
      rationals ([Q]); the one NaN the code can meet, the median of an empty
      array, is [None];
    - an array of samples comes with its [dtype]: [np.abs] is the absolute
      value on floating point samples, and leaves the minimum of a signed
      integer type unchanged (two's complement overflow);
    - sample indices, channel ids and integer parameters are [Z];
    - Python exceptions are values of [exn], carried by the result type
      [res]; what the code prints and what it asks of the recording is
      collected in a log of [effect]s;
    - [get_traces] of a recording returns an array or raises; the trace
      handed to the worker is the one-dimensional array that
      [np.squeeze(recording.get_traces(...))] yields; a frame range of a
      single sample, which [np.squeeze] turns into a scalar, is not
      modelled;
    - the workers of the parallel branch are run one after the other, in
      the order of the channels. *)

From Stdlib Require Import ZArith QArith Qabs Qround Lia Lqa.
From stdpp Require Import base option list sorting gmap strings pretty.

Local Open Scope Z_scope.

(** ** Exceptions and results *)

Inductive exn : Type :=
  | AssertionError (msg : string)
  | UnboundLocalError (var : string)
  | ValueError (msg : string)
  | IndexError
  | ZeroDivisionError.

Inductive res (A : Type) : Type :=
  | Ok (a : A)
  | Raise (e : exn).
Arguments Ok {A} a.
Arguments Raise {A} e.

Definition res_bind {A B} (m : res A) (k : A -> res B) : res B :=
  match m with
  | Ok a => k a
  | Raise e => Raise e
  end.

Declare Scope res_scope.
Delimit Scope res_scope with res.
Notation "'let*' x ':=' m 'in' k" := (res_bind m (fun x => k))
  (at level 10, x pattern, m at level 100, k at level 200) : res_scope.

Definition of_option {A} (o : option A) (e : exn) : res A :=
  match o with
  | Some a => Ok a
  | None => Raise e
  end.

(** ** The numpy operations the module calls *)

(** The element type of an array of samples, as far as the module can tell
    one from another: [float64] stands for the types on which [np.abs] is
    the absolute value (floating point, unsigned integers), [signed_int
    bits] for the two's complement integers of [bits] bits ([int16] is
    [signed_int 16]). *)
Inductive dtype : Type :=
  | float64
  | signed_int (bits : positive).

Definition int16 : dtype := signed_int 16.

(** What [get_traces] returns, squeezed: the samples and their type. *)
Record ndarray : Type := NdArray {
  dtype_of : dtype;
  samples_of : list Q
}.

Module Np.

Definition Qltb (a b : Q) : bool := negb (Qle_bool b a).

(** [int(x)] of a float: truncation toward zero. *)
Definition int (x : Q) : Z := Z.quot (Qnum x) (Zpos (Qden x)).

(** The least value of a signed integer type. *)
Definition int_min (bits : positive) : Q := inject_Z (- 2 ^ (Z.pos bits - 1)).

(** [np.abs]: on a signed integer type the absolute value of the least
    value is not representable and the least value is returned as it is. *)
Definition abs_scalar (dt : dtype) (x : Q) : Q :=
  match dt with
  | float64 => Qabs x
  | signed_int bits => if Qeq_bool x (int_min bits) then x else Qabs x
  end.

Definition abs (dt : dtype) (a : list Q) : list Q := map (abs_scalar dt) a.

(** [a[start:stop]] with Python's treatment of negative and out-of-range
    bounds; [None] is an omitted bound. *)
Definition clip_index (n i : Z) : Z :=
  if i <? 0 then Z.max (i + n) 0 else Z.min i n.

Definition slice {A} (start stop : option Z) (a : list A) : list A :=
  let n := Z.of_nat (length a) in
  let s := from_option (clip_index n) 0 start in
  let e := from_option (clip_index n) n stop in
  take (Z.to_nat (e - s)) (drop (Z.to_nat s) a).

(** [np.arange(lo, hi)]. *)
Definition arange (lo hi : Z) : list Z :=
  map (fun k => lo + Z.of_nat k) (seq 0 (Z.to_nat (hi - lo))).

(** [np.pad(a, (before, after), 'constant')]. *)
Definition pad (before after : Z) (a : list Q) : list Q :=
  replicate (Z.to_nat before) 0%Q ++ a ++ replicate (Z.to_nat after) 0%Q.

(** [np.where(mask)[0]]. *)
Fixpoint where_from (i : Z) (mask : list bool) : list Z :=
  match mask with
  | [] => []
  | b :: mask' =>
      if b then i :: where_from (i + 1) mask' else where_from (i + 1) mask'
  end.
Definition where_ (mask : list bool) : list Z := where_from 0 mask.

(** [np.diff(a)]. *)
Fixpoint diff (a : list Z) : list Z :=
  match a with
  | x :: (y :: _) as a' => (y - x) :: diff a'
  | _ => []
  end.

(** [np.median(a)]: the middle of the sorted array, the mean of the two
    middle values for an even length, NaN ([None]) for an empty one. *)
Definition sort (a : list Q) : list Q := merge_sort (fun x y => Qle_bool x y) a.

Definition median (a : list Q) : option Q :=
  let s := sort a in
  let n := length s in
  match n with
  | O => None
  | _ =>
      if Nat.even n
      then match s !! (n / 2 - 1)%nat, s !! (n / 2)%nat with
           | Some x, Some y => Some ((x + y) / 2)%Q
           | _, _ => None
           end
      else s !! (n / 2)%nat
  end.

(** [np.argmin], [np.min], [np.argmax], [np.max]: first position of the
    extremum; a [ValueError] on an empty array. *)
Fixpoint argbest_from (better : Q -> Q -> bool) (i : nat) (best : nat * Q)
    (a : list Q) : nat * Q :=
  match a with
  | [] => best
  | x :: a' =>
      argbest_from better (S i) (if better x (snd best) then (i, x) else best) a'
  end.

Definition argbest (better : Q -> Q -> bool) (a : list Q) : res (nat * Q) :=
  match a with
  | [] => Raise (ValueError "attempt to get an extremum of an empty sequence")
  | x :: a' => Ok (argbest_from better 1 (O, x) a')
  end.

Definition argmin_min (a : list Q) : res (nat * Q) := argbest Qltb a.
Definition argmax_max (a : list Q) : res (nat * Q) := argbest (fun x y => Qltb y x) a.

(** [np.linspace(start, stop, num)]. *)
Definition linspace (start stop : Q) (num : nat) : list Q :=
  match num with
  | O => []
  | 1%nat => [start]
  | _ =>
      let step := ((stop - start) / inject_Z (Z.of_nat num - 1))%Q in
      map (fun k => (start + inject_Z (Z.of_nat k) * step)%Q) (seq 0 num)
  end.

End Np.

(** ** Effects: what is printed and what is read from the recording *)

Inductive effect : Type :=
  | Print (msg : string)
  | GetTraces (channel start_frame end_frame : Z).

Definition io (A : Type) : Type := (list effect * res A)%type.

Definition io_ret {A} (a : A) : io A := ([], Ok a).
Definition io_raise {A} (e : exn) : io A := ([], Raise e).
Definition io_emit (ev : effect) : io unit := ([ev], Ok tt).
Definition io_lift {A} (r : res A) : io A := ([], r).

Definition io_bind {A B} (m : io A) (k : A -> io B) : io B :=
  match m with
  | (log, Ok a) => let (log', r) := k a in (log ++ log', r)
  | (log, Raise e) => (log, Raise e)
  end.

Declare Scope io_scope.
Delimit Scope io_scope with io.
Notation "'let!' x ':=' m 'in' k" := (io_bind m (fun x => k))
  (at level 10, x pattern, m at level 100, k at level 200) : io_scope.

(** [for x in xs: ...], collecting what each round returns. *)
Fixpoint io_map {A B} (f : A -> io B) (xs : list A) : io (list B) :=
  match xs with
  | [] => io_ret []
  | x :: xs' =>
      io_bind (f x) (fun y => io_bind (io_map f xs') (fun ys => io_ret (y :: ys)))
  end.

(** ** The collaborators: recording source and sorting container *)

(** What the module asks of a [RecordingExtractor]. [get_traces channel
    start_frame end_frame] is the squeezed one-channel trace, or the
    exception that the recording raises instead of returning it. *)
Record RecordingExtractor : Type := {
  get_sampling_frequency : Q;
  get_num_frames : Z;
  get_channel_ids : list Z;
  get_traces : Z -> Z -> Z -> res ndarray;
  check_if_dumpable : bool
}.

(** The argument check that the recordings of spikeextractors run before
    they read a trace ([check_get_traces_args]): a frame beyond the end of
    the recording is moved to the end, a negative frame counts from the
    end, and a range that holds no frame is refused by an assert. [read]
    is the recording's own access to its samples. *)
Definition frames_refused : string :=
  "'start_frame' must be less than 'end_frame'!".

Definition normalize_frame (num_frames frame : Z) : Z :=
  if frame >? num_frames then num_frames
  else if frame <? 0 then num_frames + frame
  else frame.

Definition check_get_traces_args (num_frames : Z) (read : Z -> Z -> ndarray)
    (start_frame end_frame : Z) : res ndarray :=
  let start_frame := normalize_frame num_frames start_frame in
  let end_frame := normalize_frame num_frames end_frame in
  if end_frame - start_frame >? 0 then Ok (read start_frame end_frame)
  else Raise (AssertionError frames_refused).

(** The value of a unit property: an integer, or a float that may be NaN
    ([PFloat None]). *)
Inductive property_value : Type :=
  | PInt (z : Z)
  | PFloat (x : option Q).

(** A [NumpySortingExtractor]: the unit ids, the spike train of each unit
    and the properties attached to each unit. *)
Record NumpySortingExtractor : Type := {
  get_unit_ids : list Z;
  unit_spike_trains : gmap Z (list Z);
  unit_properties : gmap Z (gmap string property_value)
}.

Definition get_unit_spike_train (sorting : NumpySortingExtractor) (u : Z) : list Z :=
  default [] (unit_spike_trains sorting !! u).

Definition set_unit_property (sorting : NumpySortingExtractor) (u : Z)
    (name : string) (v : property_value) : NumpySortingExtractor :=
  {| get_unit_ids := get_unit_ids sorting;
     unit_spike_trains := unit_spike_trains sorting;
     unit_properties :=
       <[u := <[name := v]> (default ∅ (unit_properties sorting !! u))]>
         (unit_properties sorting) |}.

Definition get_unit_property (sorting : NumpySortingExtractor) (u : Z)
    (name : string) : option property_value :=
  unit_properties sorting !! u ≫= (fun props => props !! name).

(** [times[np.where(labels == u)]] *)
Definition times_of_label (times labels : list Z) (u : Z) : list Z :=
  map fst (filter (fun tl => snd tl = u) (zip times labels)).

(** ** The per-channel worker *)

Section Detection.

(** [scipy.signal.resample(x, num)], an external routine (Fourier
    interpolation in floating point): a parameter of the development. *)
Variable resample : list Q -> Z -> res (list Q).

(** The serialized form of a recording, with the two routines of
    spikeextractors that produce it and load a recording from it. *)
Variable serialized_dict : Type.
Variable make_serialized_dict : RecordingExtractor -> serialized_dict.
Variable load_extractor_from_dict : serialized_dict -> RecordingExtractor.

(** The order in which a [NumpySortingExtractor] enumerates the units it
    has made of an array of labels. *)
Variable unit_ids_of_labels : list Z -> list Z.

Local Open Scope res_scope.

(** [np.median(np.abs(trace) / 0.6745)] *)
Definition noise_scale (dt : dtype) (trace : list Q) : option Q :=
  Np.median (map (fun x => (x / (6745 # 10000))%Q) (Np.abs dt trace)).

(** Comparisons of the samples with a threshold that may be NaN: every
    comparison with NaN is false. *)
Definition below (thresh : option Q) (x : Q) : bool :=
  match thresh with Some t => Np.Qltb x t | None => false end.
Definition above (thresh : option Q) (x : Q) : bool :=
  match thresh with Some t => Np.Qltb t x | None => false end.

(** Lines 115-123: the threshold and the indices of the samples beyond it. *)
Definition threshold_crossings (dt : dtype) (trace : list Q) (n_std : Q)
    (detect_sign : Z) : list Z :=
  if detect_sign =? -1 then
    let thresh := (fun m => (- n_std * m)%Q) <$> noise_scale dt trace in
    Np.where_ (map (below thresh) trace)
  else if detect_sign =? 1 then
    let thresh := (fun m => (n_std * m)%Q) <$> noise_scale dt trace in
    Np.where_ (map (above thresh) trace)
  else
    let thresh := (fun m => (n_std * m)%Q) <$> noise_scale dt trace in
    Np.where_ (map (fun x => above thresh x || below (Qopp <$> thresh) x) trace).

(** The local variables the loop of lines 128-168 reads and writes.
    [spike] and [t_spike] are unbound ([None]) until a branch of lines
    133-145 assigns them, and keep their value from one iteration to the
    next. *)
Record locals : Type := Locals {
  spike : option (list Q);
  t_spike : option (list Z);
  sp_times : list Z;
  sp_amplitudes : list Q
}.

Definition init_locals : locals := Locals None None [] [].

(** Lines 133-145: the window around [idx_spike]. *)
Definition assign_window (trace : list Q) (n_pad idx_spike : Z) (st : locals)
    : locals :=
  let len := Z.of_nat (length trace) in
  if (idx_spike - n_pad >? 0) && (idx_spike + n_pad <? len) then
    Locals (Some (Np.slice (Some (idx_spike - n_pad)) (Some (idx_spike + n_pad)) trace))
           (Some (Np.arange (idx_spike - n_pad) (idx_spike + n_pad)))
           (sp_times st) (sp_amplitudes st)
  else if idx_spike - n_pad <? 0 then
    Locals (Some (Np.pad (Z.abs (idx_spike - n_pad)) 0
                    (Np.slice None (Some (idx_spike + n_pad)) trace)))
           (Some (replicate (Z.to_nat (Z.abs (idx_spike - n_pad))) 0
                    ++ Np.arange 0 (idx_spike + n_pad)))
           (sp_times st) (sp_amplitudes st)
  else if idx_spike + n_pad >? len then
    Locals (Some (Np.pad 0 (idx_spike + n_pad - len)
                    (Np.slice (Some (idx_spike - n_pad)) None trace)))
           (Some (Np.arange (idx_spike - n_pad) len
                    ++ replicate (Z.to_nat (idx_spike + n_pad - len)) 0))
           (sp_times st) (sp_amplitudes st)
  else st.

(** Lines 147-152: the window and its time axis, resampled when
    [upsample > 1]. *)
Definition upsampled (upsample : Z) (spike : list Q) (t_spike : list Z)
    : res (list Q * list Q) :=
  if upsample >? 1 then
    let* spike_up := resample spike (upsample * Z.of_nat (length spike)) in
    let* t_first := of_option (head t_spike) IndexError in
    let* t_last := of_option (last t_spike) IndexError in
    Ok (spike_up, Np.linspace (inject_Z t_first) (inject_Z t_last) (length spike_up))
  else Ok (spike, map inject_Z t_spike).

(** The type of [spike_up]: the resampler returns floating point values,
    a window that is not resampled has the type of the trace. *)
Definition upsampled_dtype (dt : dtype) (upsample : Z) : dtype :=
  if upsample >? 1 then float64 else dt.

(** Lines 153-161: position and value of the extremum of [spike_up], an
    array of type [dt]. *)
Definition find_peak (dt : dtype) (detect_sign : Z) (spike_up : list Q)
    : res (nat * Q) :=
  if detect_sign =? -1 then Np.argmin_min spike_up
  else if detect_sign =? 1 then Np.argmax_max spike_up
  else Np.argmax_max (Np.abs dt spike_up).

(** Lines 130-168: the body run for a selected crossing. *)
Definition record_spike (dt : dtype) (trace : list Q)
    (detect_sign n_pad upsample : Z) (align : bool) (idx_spike : Z)
    (st : locals) : res locals :=
  if align then
    let st := assign_window trace n_pad idx_spike st in
    let* spike := of_option (spike st) (UnboundLocalError "spike") in
    let* t_spike := of_option (t_spike st) (UnboundLocalError "t_spike") in
    let* (spike_up, t_spike_up) := upsampled upsample spike t_spike in
    let* (peak_idx, peak_val) :=
      find_peak (upsampled_dtype dt upsample) detect_sign spike_up in
    let* min_time_up := of_option (t_spike_up !! peak_idx) IndexError in
    Ok (Locals (Some spike) (Some t_spike)
          (sp_times st ++ [Np.int min_time_up])
          (sp_amplitudes st ++ [peak_val]))
  else
    let* v := of_option (if idx_spike <? 0 then None
                         else trace !! Z.to_nat idx_spike) IndexError in
    Ok (Locals (spike st) (t_spike st)
          (sp_times st ++ [idx_spike]) (sp_amplitudes st ++ [v])).

(** Line 129: is the crossing at position [i_t] selected? *)
Definition selected (n_intervals : nat) (min_diff_samples : Z) (i_t : nat)
    (diff : Z) : bool :=
  (diff >? min_diff_samples) || (Z.of_nat i_t =? Z.of_nat n_intervals - 1).

(** Lines 128-168: [for i_t, diff in enumerate(intervals)]. *)
Fixpoint spike_loop (dt : dtype) (trace : list Q)
    (detect_sign n_pad upsample min_diff_samples : Z)
    (align : bool) (idx_spikes : list Z) (n_intervals : nat)
    (i_t : nat) (intervals : list Z) (st : locals) : res locals :=
  match intervals with
  | [] => Ok st
  | diff :: rest =>
      let* st' :=
        if selected n_intervals min_diff_samples i_t diff then
          let* idx_spike := of_option (idx_spikes !! i_t) IndexError in
          record_spike dt trace detect_sign n_pad upsample align idx_spike st
        else Ok st in
      spike_loop dt trace detect_sign n_pad upsample min_diff_samples align
        idx_spikes n_intervals (S i_t) rest st'
  end.

(** Lines 115-172 on the squeezed trace, an array of type [dt]: spike
    times, amplitudes, labels. *)
Definition detect_on_trace (dt : dtype) (trace : list Q) (channel : Z) (n_std : Q)
    (detect_sign n_pad upsample min_diff_samples : Z) (align : bool)
    : res (list Z * list Q * list Z) :=
  let idx_spikes := threshold_crossings dt trace n_std detect_sign in
  let intervals := Np.diff idx_spikes in
  let* st := spike_loop dt trace detect_sign n_pad upsample min_diff_samples align
               idx_spikes (length intervals) 0 intervals init_locals in
  Ok (sp_times st, sp_amplitudes st, replicate (length (sp_times st)) channel).

(** The recording argument of the worker: the recording itself, or the
    dict it is loaded from ([isinstance(rec_arg, dict)], lines 110-113). *)
Inductive recording_arg : Type :=
  | RecObject (recording : RecordingExtractor)
  | RecDict (d : serialized_dict).

Definition recording_of (rec_arg : recording_arg) : RecordingExtractor :=
  match rec_arg with
  | RecObject recording => recording
  | RecDict d => load_extractor_from_dict d
  end.

Local Open Scope io_scope.

(** Lines 106-172. *)
Definition _detect_and_align_peaks_single_channel (rec_arg : recording_arg)
    (channel : Z) (n_std : Q) (detect_sign n_pad upsample min_diff_samples : Z)
    (align : bool) (start_frame end_frame : Z) (verbose : bool)
    : io (list Z * list Q * list Z) :=
  let! _ := (if verbose
             then io_emit (Print ("Detecting spikes on channel " +:+ pretty channel))
             else io_ret tt) in
  let recording := recording_of rec_arg in
  let! _ := io_emit (GetTraces channel start_frame end_frame) in
  let! trace := io_lift (get_traces recording channel start_frame end_frame) in
  io_lift (detect_on_trace (dtype_of trace) (samples_of trace) channel n_std
             detect_sign n_pad upsample min_diff_samples align).

(** Lines 91-94: the sorting made of the flattened times and labels. *)
Definition set_times_labels (times labels : list Z) : NumpySortingExtractor :=
  let units := unit_ids_of_labels labels in
  {| get_unit_ids := units;
     unit_spike_trains :=
       list_to_map (map (fun u => (u, times_of_label times labels u)) units);
     unit_properties := ∅ |}.

(** Lines 98-101: the properties of the unit at position [i_u]. *)
Definition set_properties_of_unit (spike_amplitudes : list (list Q)) (duration : Q)
    (sorting : NumpySortingExtractor) (i_u : nat) (u : Z)
    : res NumpySortingExtractor :=
  let sorting := set_unit_property sorting u "channel" (PInt u) in
  res_bind (of_option (spike_amplitudes !! i_u) IndexError) (fun amplitudes =>
  let sorting :=
    set_unit_property sorting u "spike_amplitude" (PFloat (Np.median amplitudes)) in
  if Qeq_bool duration 0 then Raise ZeroDivisionError
  else
    let n := inject_Z (Z.of_nat (length (get_unit_spike_train sorting u))) in
    Ok (set_unit_property sorting u "spike_rate" (PFloat (Some (n / duration)%Q)))).

Fixpoint set_properties_from (spike_amplitudes : list (list Q)) (duration : Q)
    (i_u : nat) (units : list Z) (sorting : NumpySortingExtractor)
    : res NumpySortingExtractor :=
  match units with
  | [] => Ok sorting
  | u :: units' =>
      res_bind (set_properties_of_unit spike_amplitudes duration sorting i_u u)
        (set_properties_from spike_amplitudes duration (S i_u) units')
  end.

Definition not_all_channels : string :=
  "Not all 'channel_ids' are in therecording.".

Definition not_dumpable : string :=
  "RecordingExtractor is not dumpable and can't be processedin parallel".

(** Lines 8-103. The workers of the parallel branch are run here one after
    the other, in the order of [channel_ids], which is the order joblib
    returns their outputs in. *)
Definition detect_spikes (recording : RecordingExtractor)
    (channel_ids : option (list Z)) (detect_threshold n_pad_ms : Q)
    (upsample detect_sign min_diff_samples : Z) (align : bool)
    (start_frame end_frame : option Z) (n_jobs : Z) (verbose : bool)
    : io NumpySortingExtractor :=
  let n_pad_samples :=
    Np.int (n_pad_ms * get_sampling_frequency recording / 1000)%Q in
  let start_frame := default 0 start_frame in
  let end_frame := default (get_num_frames recording) end_frame in
  let! channel_ids :=
    match channel_ids with
    | None => io_ret (get_channel_ids recording)
    | Some chs =>
        if forallb (fun ch => bool_decide (ch ∈ get_channel_ids recording)) chs
        then io_ret chs
        else io_raise (AssertionError not_all_channels)
    end in
  let! (n_jobs, rec_arg) :=
    if negb (check_if_dumpable recording) then
      if n_jobs >? 1 then
        let! _ := io_emit (Print not_dumpable) in
        io_ret (0, RecObject recording)
      else io_ret (n_jobs, RecObject recording)
    else io_ret (n_jobs, RecDict (make_serialized_dict recording)) in
  let! output :=
    if n_jobs >? 1 then
      io_map (fun ch =>
                _detect_and_align_peaks_single_channel rec_arg ch detect_threshold
                  detect_sign n_pad_samples upsample min_diff_samples align
                  start_frame end_frame verbose) channel_ids
    else
      io_map (fun ch =>
                _detect_and_align_peaks_single_channel (RecObject recording) ch
                  detect_threshold detect_sign n_pad_samples upsample
                  min_diff_samples align start_frame end_frame verbose) channel_ids in
  let spike_times := map (fun o => fst (fst o)) output in
  let spike_amplitudes := map (fun o => snd (fst o)) output in
  let labels := map snd output in
  let sorting := set_times_labels (concat spike_times) (concat labels) in
  if Qeq_bool (get_sampling_frequency recording) 0 then io_raise ZeroDivisionError
  else
    let duration :=
      (inject_Z (end_frame - start_frame) / get_sampling_frequency recording)%Q in
    io_lift (set_properties_from spike_amplitudes duration 0
               (get_unit_ids sorting) sorting).

End Detection.

Arguments RecObject {serialized_dict} recording.
Arguments RecDict {serialized_dict} d.
Arguments recording_of {serialized_dict} load_extractor_from_dict rec_arg.
Arguments _detect_and_align_peaks_single_channel resample {serialized_dict}.
Arguments detect_spikes resample {serialized_dict}.

(** ** Concrete inputs used by the examples *)

(** A recording backed by one array of samples of type [dt] per channel;
    [get_traces] goes through the argument check of the library and reads
    a frame range as the slice [start_frame:end_frame]. *)
Definition recording_of_traces (fs : Q) (chs : list Z) (dt : dtype)
    (samples : Z -> list Q) (dumpable : bool) : RecordingExtractor :=
  let num_frames := Z.of_nat (length (samples (default 0 (head chs)))) in
  {| get_sampling_frequency := fs;
     get_num_frames := num_frames;
     get_channel_ids := chs;
     get_traces := fun ch =>
                     check_get_traces_args num_frames
                       (fun start_frame end_frame =>
                          NdArray dt (Np.slice (Some start_frame) (Some end_frame)
                                        (samples ch)));
     check_if_dumpable := dumpable |}.

(** An instance of the resampler for windows of two samples: the Fourier
    interpolation of [x0; x1] to four samples is [x0; (x0+x1)/2; x1;
    (x0+x1)/2]. On any other window it cuts or zero-pads to the length
    asked for, which is not what [scipy.signal.resample] computes. *)
Definition resample_pair (x : list Q) (num : Z) : res (list Q) :=
  match x, num with
  | [x0; x1], 4 => Ok [x0; ((x0 + x1) / 2)%Q; x1; ((x0 + x1) / 2)%Q]
  | _, _ => Ok (take (Z.to_nat num) (x ++ replicate (Z.to_nat num) 0%Q))
  end.

(** The unit ids that a [NumpySortingExtractor] makes of an array of
    labels: [np.unique(labels)], the distinct labels in ascending order. *)
Definition sorted_unique (labels : list Z) : list Z :=
  merge_sort Z.le (remove_dups labels).

(** One second at 30 kHz, flat but for one sample of -50 at index 15000. *)
Definition single_spike_trace : list Q :=
  replicate (Z.to_nat 15000) 0%Q ++ [(-50)%Q] ++ replicate (Z.to_nat 14999) 0%Q.

(** Ten flat samples with a sample of -50 at index 2 and at index 9. *)
Definition edge_trace : list Q := [0; 0; -50; 0; 0; 0; 0; 0; 0; -50]%Q.

(** Twenty flat samples with -100 at index 5, -50 at index 8 and at 15. *)
Definition close_spikes_trace : list Q :=
  [0; 0; 0; 0; 0; -100; 0; 0; -50; 0; 0; 0; 0; 0; 0; -50; 0; 0; 0; 0]%Q.

(** Ten flat samples with a sample of -50 at index 5 and at index 9. *)
Definition pair_trace : list Q := [0; 0; 0; 0; 0; -50; 0; 0; 0; -50]%Q.

(** Five samples of an int16 recording, three of them at the least value
    of the type. *)
Definition saturated_trace : list Q := [-32768; -32768; -32768; 100; 100]%Q.

(** Two channels of ten samples: channel 0 is flat, channel 1 is
    [edge_trace]. *)
Definition two_channel_samples (ch : Z) : list Q :=
  if ch =? 1 then edge_trace else replicate 10 0%Q.


(** ** Predicates the properties are stated with *)

(** [peak_val], at position [peak_idx], is the extremum of [spike_up], an
    array of type [dt], that lines 153-161 look for: the minimum for
    detect_sign = -1, the maximum for detect_sign = 1, the largest value of
    [np.abs] otherwise; [peak_idx] is the first position where it occurs. *)
Definition is_extremum (dt : dtype) (detect_sign : Z) (spike_up : list Q)
    (peak_idx : nat) (peak_val : Q) : Prop :=
  if detect_sign =? -1 then
    spike_up !! peak_idx = Some peak_val /\
    Forall (fun x => (peak_val <= x)%Q) spike_up /\
    forall j x, (j < peak_idx)%nat -> spike_up !! j = Some x -> (peak_val < x)%Q
  else if detect_sign =? 1 then
    spike_up !! peak_idx = Some peak_val /\
    Forall (fun x => (x <= peak_val)%Q) spike_up /\
    forall j x, (j < peak_idx)%nat -> spike_up !! j = Some x -> (x < peak_val)%Q
  else
    Np.abs_scalar dt <$> spike_up !! peak_idx = Some peak_val /\
    Forall (fun x => (Np.abs_scalar dt x <= peak_val)%Q) spike_up /\
    forall j x, (j < peak_idx)%nat -> spike_up !! j = Some x ->
                (Np.abs_scalar dt x < peak_val)%Q.

(** The window and time axis that lines 133-145 assign at a crossing, when
    one of their three branches is taken there. *)
Definition window_at (trace : list Q) (n_pad idx_spike : Z)
    : option (list Q) * option (list Z) :=
  let st := assign_window trace n_pad idx_spike init_locals in
  (spike st, t_spike st).




(** A recording of two channels sampled at 1000 Hz, see
    [two_channel_samples]; it is not dumpable. *)
Definition two_channel_recording : RecordingExtractor :=
  recording_of_traces 1000 [0; 1] float64 two_channel_samples false.

(** One-channel recordings of floating point samples at 1000 Hz, not
    dumpable. *)
Definition one_channel_recording (samples : list Q) : RecordingExtractor :=
  recording_of_traces 1000 [0] float64 (fun _ => samples) false.

(** Instances of the parameters for closed examples: the serialized form
    of a recording is the recording itself. *)
Definition example_worker :=
  _detect_and_align_peaks_single_channel resample_pair
    (fun recording : RecordingExtractor => recording).

Definition example_detect :=
  detect_spikes resample_pair
    (fun recording : RecordingExtractor => recording)
    (fun recording : RecordingExtractor => recording)
    sorted_unique.

(** The window variables of the loop are unbound, or hold a window that is
    not empty and no longer than its time axis. *)
Definition window_ok (st : locals) : Prop :=
  match spike st, t_spike st with
  | None, _ => True
  | Some sp, Some ts => (0 < length sp <= length ts)%nat
  | Some _, None => False
  end.

(** The event [(t, a)] sits at the extremum of the samples of the trace,
    an array of type [dt], with indices in [lo, hi): [t] is in that range,
    [a] is the sample at [t] ([np.abs] of it when both signs are detected),
    and no sample of the range ([np.abs] of no sample) is beyond [a]. *)
Definition extreme_in_range (dt : dtype) (detect_sign : Z) (trace : list Q)
    (lo hi t : Z) (a : Q) : Prop :=
  lo <= t < hi /\
  if detect_sign =? -1 then
    trace !! Z.to_nat t = Some a /\
    forall k x, lo <= k < hi -> trace !! Z.to_nat k = Some x -> (a <= x)%Q
  else if detect_sign =? 1 then
    trace !! Z.to_nat t = Some a /\
    forall k x, lo <= k < hi -> trace !! Z.to_nat k = Some x -> (x <= a)%Q
  else
    Np.abs_scalar dt <$> trace !! Z.to_nat t = Some a /\
    forall k x, lo <= k < hi -> trace !! Z.to_nat k = Some x ->
                (Np.abs_scalar dt x <= a)%Q.

(** No sample of the array is the least value of its type: [np.abs] is
    the absolute value of every sample. *)
Definition holds_no_minimum (dt : dtype) (a : list Q) : Prop :=
  match dt with
  | float64 => True
  | signed_int bits => Forall (fun x => ~ (x == Np.int_min bits)%Q) a
  end.

(** The recording of [two_channel_recording], made dumpable. *)
Definition dumpable_recording : RecordingExtractor :=
  recording_of_traces 1000 [0; 1] float64 two_channel_samples true.

(** * Properties of the embedding *)

Section Properties.

Variable resample : list Q -> Z -> res (list Q).
Variable serialized_dict : Type.
Variable make_serialized_dict : RecordingExtractor -> serialized_dict.
Variable load_extractor_from_dict : serialized_dict -> RecordingExtractor.
Variable unit_ids_of_labels : list Z -> list Z.

Abbreviation worker :=
  (_detect_and_align_peaks_single_channel resample load_extractor_from_dict).
Abbreviation detect :=
  (detect_spikes resample make_serialized_dict load_extractor_from_dict
     unit_ids_of_labels).

(** What the worker returns is [detect_on_trace] on the trace it reads;
    what the recording raises instead of a trace, the worker raises. *)
Lemma worker_outcome rec_arg ch n_std sign n_pad up md align s e verbose :
  snd (worker rec_arg ch n_std sign n_pad up md align s e verbose) =
  res_bind (get_traces (recording_of load_extractor_from_dict rec_arg) ch s e)
    (fun trace =>
       detect_on_trace resample (dtype_of trace) (samples_of trace)
         ch n_std sign n_pad up md align).
Proof.
  unfold _detect_and_align_peaks_single_channel.
  destruct (get_traces _ _ _ _); destruct verbose; reflexivity.
Qed.

Lemma worker_log rec_arg ch n_std sign n_pad up md align s e verbose :
  fst (worker rec_arg ch n_std sign n_pad up md align s e verbose) =
  (if verbose then [Print ("Detecting spikes on channel " +:+ pretty ch)] else [])
    ++ [GetTraces ch s e].
Proof.
  unfold _detect_and_align_peaks_single_channel.
  destruct (get_traces _ _ _ _); destruct verbose; reflexivity.
Qed.

(** The array that the worker reads is, from here on, [trace], of type
    [dt]. *)
Section OnTrace.

Variable dt : dtype.

Lemma worker_on_trace rec_arg ch n_std sign n_pad up md align s e verbose trace :
  get_traces (recording_of load_extractor_from_dict rec_arg) ch s e
  = Ok (NdArray dt trace) ->
  snd (worker rec_arg ch n_std sign n_pad up md align s e verbose) =
  detect_on_trace resample dt trace ch n_std sign n_pad up md align.
Proof. intros Hread. rewrite worker_outcome, Hread. reflexivity. Qed.

(** C1 (the code departs from the claim): on the one-second trace at
    30000 Hz that is flat but for a sample of -50 at index 15000, with
    detect_sign = -1, detect_threshold = 5, min_diff_samples = 5, n_pad_ms =
    2 (60 samples), upsample = 1 and align = True, the only crossing is
    index 15000, [np.diff] of one index is empty, the loop body never runs
    and the worker returns no event at all. *)
Theorem single_spike_scenario_yields_no_event :
  threshold_crossings float64 single_spike_trace 5 (-1) = [15000] /\
  worker (RecObject (recording_of_traces 30000 [0] float64 (fun _ => single_spike_trace) false))
    0 5 (-1) (Np.int (2 * 30000 / 1000)) 1 5 true 0 30000 false
  = ([GetTraces 0 0 30000], Ok ([], [], [])).
Proof. split; vm_compute; reflexivity. Qed.

(** C2 (the code departs from the claim): with crossings at 5 and 9 and
    min_diff_samples = 5, the loop of lines 128-130 selects index 5, whose
    gap to the next crossing (4) does not exceed min_diff_samples and which
    is not the last crossing, and does not select index 9, which is the
    last crossing. *)
Theorem last_crossing_is_never_the_anchor n_pad up :
  threshold_crossings float64 pair_trace 5 (-1) = [5; 9] /\
  detect_on_trace resample float64 pair_trace 0 5 (-1) n_pad up 5 false
  = Ok ([5], [(-50)%Q], [0]).
Proof. split; vm_compute; reflexivity. Qed.

(** C3 (the code departs from the claim): with align = True and an anchor
    at index 2 = n_pad, none of the three branches of lines 133-145 is
    taken ([idx_spike - n_pad] is neither > 0 nor < 0, and [idx_spike +
    n_pad] is not beyond the trace), [spike] is read before any assignment
    and the worker raises UnboundLocalError. *)
Theorem anchor_at_pad_distance_is_unbound :
  threshold_crossings float64 edge_trace 5 (-1) = [2; 9] /\
  detect_on_trace resample float64 edge_trace 0 5 (-1) 2 1 5 true
  = Raise (UnboundLocalError "spike").
Proof. split; vm_compute; reflexivity. Qed.


(** C7: when some requested channel id is not among the channel ids of the
    recording, [detect_spikes] raises the AssertionError of line 57; nothing
    has been printed, no trace has been read (no worker has run) and no
    sorting is returned. *)
Theorem unknown_channel_is_rejected recording chs detect_threshold n_pad_ms
    upsample detect_sign min_diff_samples align start_frame end_frame n_jobs verbose :
  (exists ch, ch ∈ chs /\ ch ∉ get_channel_ids recording) ->
  detect recording (Some chs) detect_threshold n_pad_ms upsample detect_sign
    min_diff_samples align start_frame end_frame n_jobs verbose
  = ([], Raise (AssertionError not_all_channels)).
Proof.
  intros (ch & Hin & Hnot). unfold detect_spikes.
  assert (Hall : forallb (fun ch => bool_decide (ch ∈ get_channel_ids recording)) chs = false).
  { apply not_true_iff_false. intros Hall.
    rewrite forallb_forall in Hall.
    apply list_elem_of_In in Hin. apply Hall in Hin.
    apply bool_decide_eq_true in Hin. contradiction. }
  rewrite Hall. reflexivity.
Qed.

(** Binding after a single emitted effect prepends it to the log. *)
Lemma io_bind_emit {B} (ev : effect) (k : unit -> io B) :
  io_bind (io_emit ev) k = (ev :: fst (k tt), snd (k tt)).
Proof. unfold io_bind, io_emit. destruct (k tt); reflexivity. Qed.

Lemma io_bind_ret {A B} (a : A) (k : A -> io B) : io_bind (io_ret a) k = k a.
Proof. unfold io_bind, io_ret. destruct (k a); reflexivity. Qed.

Lemma io_bind_assoc {A B C} (m : io A) (k : A -> io B) (h : B -> io C) :
  io_bind (io_bind m k) h = io_bind m (fun a => io_bind (k a) h).
Proof.
  destruct m as [log [a|e]]; simpl; [|reflexivity].
  destruct (k a) as [log' [b|e']]; simpl; [|reflexivity].
  destruct (h b) as [log'' r]. rewrite app_assoc. reflexivity.
Qed.

Lemma io_bind_ok {A B} log (a : A) (k : A -> io B) :
  io_bind (log, Ok a) k = (log ++ fst (k a), snd (k a)).
Proof. unfold io_bind. destruct (k a); reflexivity. Qed.

(** C8: on a recording that is not dumpable, a run with n_jobs > 1 has the
    outcome (the sorting, or the exception) of the run with n_jobs = 1 on
    the same inputs; when the requested channels exist, what it prints and
    reads is what the run with n_jobs = 1 prints and reads, after the
    warning of line 63. *)
Theorem not_dumpable_falls_back_to_sequential recording channel_ids
    detect_threshold n_pad_ms upsample detect_sign min_diff_samples align
    start_frame end_frame n_jobs verbose :
  check_if_dumpable recording = false ->
  n_jobs > 1 ->
  let parallel :=
    detect recording channel_ids detect_threshold n_pad_ms upsample detect_sign
      min_diff_samples align start_frame end_frame n_jobs verbose in
  let sequential :=
    detect recording channel_ids detect_threshold n_pad_ms upsample detect_sign
      min_diff_samples align start_frame end_frame 1 verbose in
  snd parallel = snd sequential /\
  ((forall chs ch, channel_ids = Some chs -> ch ∈ chs ->
      ch ∈ get_channel_ids recording) ->
   fst parallel = Print not_dumpable :: fst sequential).
Proof.
  intros Hdump Hjobs parallel sequential. subst parallel sequential.
  unfold detect_spikes. rewrite Hdump. simpl negb. cbv iota.
  assert (Hgt : (n_jobs >? 1) = true) by (apply Z.gtb_lt; lia).
  rewrite Hgt.
  change (1 >? 1) with false. cbv iota.
  set (validated := match channel_ids with
                    | Some chs => _
                    | None => _
                    end).
  destruct validated as [log [chs|e]] eqn:Hval.
  - assert (log = []) as ->.
    { subst validated. destruct channel_ids as [chs'|].
      - destruct (forallb _ chs'); inversion Hval; reflexivity.
      - inversion Hval; reflexivity. }
    rewrite !io_bind_ok. rewrite io_bind_assoc, io_bind_emit, !io_bind_ret.
    cbv beta iota. change (0 >? 1) with false. change (1 >? 1) with false.
    cbv iota. split; [reflexivity|]. intros _. reflexivity.
  - split; [reflexivity|]. intros Hall. exfalso.
    subst validated. destruct channel_ids as [chs'|]; [|inversion Hval].
    destruct (forallb _ chs') eqn:Hf; [inversion Hval|].
    apply not_true_iff_false in Hf. apply Hf.
    apply forallb_forall. intros ch Hin. apply bool_decide_eq_true.
    apply (Hall chs' ch eq_refl). apply list_elem_of_In. exact Hin.
Qed.

(** *** The crossings and the loop over their intervals *)

Lemma diff_length (a : list Z) : length (Np.diff a) = pred (length a).
Proof.
  induction a as [|x [|y a'] IH]; [reflexivity..|].
  change (Np.diff (x :: y :: a')) with ((y - x) :: Np.diff (y :: a')).
  simpl length in *. rewrite IH. reflexivity.
Qed.

Lemma where_from_spec (mask : list bool) (i : Z) :
  StronglySorted Z.lt (Np.where_from i mask) /\
  Forall (fun k => i <= k < i + Z.of_nat (length mask)) (Np.where_from i mask).
Proof.
  revert i. induction mask as [|b mask IH]; intros i; simpl.
  - split; constructor.
  - destruct (IH (i + 1)) as [Hs Hb].
    assert (Hb' : Forall (fun k => i < k /\ i <= k < i + Z.pos (Pos.of_succ_nat (length mask)))
                    (Np.where_from (i + 1) mask)).
    { eapply Forall_impl; [exact Hb|]. simpl. intros k Hk. lia. }
    destruct b.
    + split.
      * constructor; [exact Hs|]. eapply Forall_impl; [exact Hb'|]. simpl. tauto.
      * constructor; [lia|]. eapply Forall_impl; [exact Hb'|]. simpl. tauto.
    + split; [exact Hs|]. eapply Forall_impl; [exact Hb'|]. simpl. tauto.
Qed.

(** The crossings are strictly increasing indices into the trace. *)
Lemma threshold_crossings_spec (trace : list Q) (n_std : Q) (sign : Z) :
  StronglySorted Z.lt (threshold_crossings dt trace n_std sign) /\
  Forall (fun k => 0 <= k < Z.of_nat (length trace))
    (threshold_crossings dt trace n_std sign).
Proof.
  unfold threshold_crossings, Np.where_.
  destruct (sign =? -1); [|destruct (sign =? 1)];
    match goal with
    | |- context [Np.where_from 0 (map ?f trace)] =>
        pose proof (where_from_spec (map f trace) 0) as [Hs Hb];
        rewrite length_map in Hb; split; [exact Hs|];
        eapply Forall_impl; [exact Hb|]; simpl; intros; lia
    end.
Qed.

Lemma record_spike_length trace sign n_pad up align idx st st' :
  record_spike resample dt trace sign n_pad up align idx st = Ok st' ->
  length (sp_times st') = S (length (sp_times st)).
Proof.
  unfold record_spike. destruct align.
  - destruct (spike (assign_window trace n_pad idx st)) as [sp|] eqn:Hsp; [|discriminate].
    destruct (t_spike (assign_window trace n_pad idx st)) as [ts|] eqn:Hts; [|discriminate].
    simpl. destruct (upsampled resample up sp ts) as [[su tu]|]; [|discriminate].
    simpl. destruct (find_peak (upsampled_dtype dt up) sign su) as [[pi pv]|]; [|discriminate].
    simpl. destruct (tu !! pi); [|discriminate].
    simpl. intros [= <-]. simpl. rewrite length_app. simpl.
    assert (sp_times (assign_window trace n_pad idx st) = sp_times st) as ->.
    { unfold assign_window. repeat (destruct (_ : bool)); reflexivity. }
    lia.
  - destruct (if idx <? 0 then None else trace !! Z.to_nat idx); [|discriminate].
    simpl. intros [= <-]. simpl. rewrite length_app. simpl. lia.
Qed.

Lemma spike_loop_length trace sign n_pad up md align idx_spikes n intervals :
  forall i_t st st',
    spike_loop resample dt trace sign n_pad up md align idx_spikes n i_t intervals st
    = Ok st' ->
    (length (sp_times st') <= length (sp_times st) + length intervals)%nat.
Proof.
  induction intervals as [|d rest IH]; intros i_t st st'; simpl.
  - intros [= <-]. lia.
  - destruct (selected n md i_t d).
    + destruct (idx_spikes !! i_t) as [idx|]; [|discriminate]. simpl.
      destruct (record_spike resample dt trace sign n_pad up align idx st) as [st1|] eqn:Hrec;
        [|discriminate].
      simpl. intros Hloop. apply IH in Hloop.
      apply record_spike_length in Hrec. lia.
    + simpl. intros Hloop. apply IH in Hloop. lia.
Qed.

(** C10: the worker returns at most C - 1 events (none when C = 0), where C
    is the number of samples beyond the threshold; with exactly one such
    sample it returns, without error, no event. *)
Theorem events_are_fewer_than_crossings rec_arg ch n_std sign n_pad up md align s e verbose
    trace :
  get_traces (recording_of load_extractor_from_dict rec_arg) ch s e
  = Ok (NdArray dt trace) ->
  let crossings := threshold_crossings dt trace n_std sign in
  let outcome := snd (worker rec_arg ch n_std sign n_pad up md align s e verbose) in
  (forall times amplitudes labels,
     outcome = Ok (times, amplitudes, labels) ->
     (length times <= length crossings - 1)%nat) /\
  (length crossings = 1%nat -> outcome = Ok ([], [], [])).
Proof.
  intros Hread crossings outcome. subst outcome.
  rewrite (worker_on_trace _ _ _ _ _ _ _ _ _ _ _ _ Hread).
  unfold detect_on_trace. fold crossings.
  split.
  - intros times amplitudes labels.
    destruct (spike_loop _ _ _ _ _ _ _ _ _ _ _ _ _) as [st|] eqn:Hloop; [|discriminate].
    simpl. intros [= <- _ _].
    apply spike_loop_length in Hloop. rewrite diff_length in Hloop.
    simpl in Hloop. lia.
  - intros Hone. destruct crossings as [|c [|c' cs]]; try discriminate.
    reflexivity.
Qed.

(** Without alignment the loop never fails: it appends crossings taken, in
    order, from the ones still ahead. *)
Lemma spike_loop_unaligned trace sign n_pad up md n (cur : list Z) :
  forall (pre : list Z) (st : locals),
    Forall (fun k => 0 <= k < Z.of_nat (length trace)) cur ->
    StronglySorted Z.lt cur ->
    exists ts vs,
      spike_loop resample dt trace sign n_pad up md false (pre ++ cur) n
        (length pre) (Np.diff cur) st
      = Ok (Locals (spike st) (t_spike st) (sp_times st ++ ts) (sp_amplitudes st ++ vs))
      /\ StronglySorted Z.lt ts
      /\ Forall (fun t => t ∈ cur) ts.
Proof.
  induction cur as [|x cur IH]; intros pre st Hvalid Hsorted.
  - exists [], []. simpl. rewrite !app_nil_r. destruct st; repeat split; constructor.
  - destruct cur as [|y rest].
    + exists [], []. simpl. rewrite !app_nil_r. destruct st; repeat split; constructor.
    + change (Np.diff (x :: y :: rest)) with ((y - x) :: Np.diff (y :: rest)).
      apply Forall_cons in Hvalid as [Hx Hvalid].
      apply StronglySorted_inv in Hsorted as [Hsorted Hlt].
      cbn [spike_loop].
      assert (Hpre : pre ++ x :: y :: rest = (pre ++ [x]) ++ y :: rest)
        by (rewrite <- app_assoc; reflexivity).
      assert (Hlen : S (length pre) = length (pre ++ [x]))
        by (rewrite length_app; simpl; lia).
      destruct (selected n md (length pre) (y - x)).
      * assert (Hlook : (pre ++ x :: y :: rest) !! length pre = Some x).
        { rewrite lookup_app_r by lia. rewrite Nat.sub_diag. reflexivity. }
        rewrite Hlook. cbn [of_option res_bind]. unfold record_spike.
        assert (Hneg : (x <? 0) = false) by (apply Z.ltb_ge; lia).
        rewrite Hneg.
        destruct (lookup_lt_is_Some_2 trace (Z.to_nat x)) as [v Hv]; [lia|].
        rewrite Hv. cbn [of_option res_bind].
        rewrite Hpre, Hlen.
        destruct (IH (pre ++ [x])
                    (Locals (spike st) (t_spike st) (sp_times st ++ [x])
                       (sp_amplitudes st ++ [v])) Hvalid Hsorted)
          as (ts & vs & Hloop & Hts & Hin).
        exists (x :: ts), (v :: vs). rewrite Hloop. cbn [spike t_spike sp_times sp_amplitudes].
        rewrite <- !app_assoc. split; [reflexivity|]. split.
        -- constructor; [exact Hts|].
           rewrite Forall_forall in Hin, Hlt |- *.
           intros t Ht. apply Hlt. apply Hin. exact Ht.
        -- constructor; [left|].
           eapply Forall_impl; [exact Hin|]. simpl. intros t Ht. right. exact Ht.
      * cbn [res_bind]. rewrite Hpre, Hlen.
        destruct (IH (pre ++ [x]) st Hvalid Hsorted) as (ts & vs & Hloop & Hts & Hin).
        exists ts, vs. split; [exact Hloop|]. split; [exact Hts|].
        eapply Forall_impl; [exact Hin|]. simpl. intros t Ht. right. exact Ht.
Qed.

(** C9, as amended: with align = False the worker always returns, and the
    times it returns for a channel are strictly increasing, whatever the
    trace that it reads, the type of its samples and the other
    parameters. *)
Theorem unaligned_times_strictly_increase rec_arg ch n_std sign n_pad up md s e verbose
    trace :
  get_traces (recording_of load_extractor_from_dict rec_arg) ch s e
  = Ok (NdArray dt trace) ->
  exists times amplitudes,
    snd (_detect_and_align_peaks_single_channel resample load_extractor_from_dict
           rec_arg ch n_std sign n_pad up md false s e verbose)
    = Ok (times, amplitudes, replicate (length times) ch)
    /\ StronglySorted Z.lt times.
Proof.
  intros Hread. rewrite (worker_on_trace _ _ _ _ _ _ _ _ _ _ _ _ Hread).
  unfold detect_on_trace.
  destruct (threshold_crossings_spec trace n_std sign) as [Hsorted Hvalid].
  destruct (spike_loop_unaligned trace sign n_pad up md
              (length (Np.diff (threshold_crossings dt trace n_std sign)))
              (threshold_crossings dt trace n_std sign) [] init_locals Hvalid Hsorted)
    as (ts & vs & Hloop & Hts & _).
  simpl in Hloop. rewrite Hloop. simpl. exists ts, vs. split; [reflexivity|exact Hts].
Qed.

(** *** The extremum search *)

Section Argbest.

Variable better : Q -> Q -> bool.
Variable le : Q -> Q -> Prop.
Hypothesis le_refl : forall x, le x x.
Hypothesis le_trans : forall x y z, le x y -> le y z -> le x z.
Hypothesis better_le : forall x y, better x y = true -> le x y.
Hypothesis not_better_le : forall x y, better x y = false -> le y x.
Hypothesis better_trans :
  forall x y z, better x y = true -> le y z -> better x z = true.

Lemma argbest_from_spec (a done : list Q) :
  forall (j : nat) (b : Q) (k : nat) (v : Q),
    done !! j = Some b ->
    Forall (le b) done ->
    (forall i y, (i < j)%nat -> done !! i = Some y -> better b y = true) ->
    Np.argbest_from better (length done) (j, b) a = (k, v) ->
    (done ++ a) !! k = Some v /\ Forall (le v) (done ++ a) /\
    (forall i y, (i < k)%nat -> (done ++ a) !! i = Some y -> better v y = true).
Proof.
  revert done. induction a as [|x a IH]; intros done j b k v Hj Hdone Hfirst; simpl.
  - intros [= <- <-]. rewrite app_nil_r. repeat split; assumption.
  - intros Hbest.
    assert (Happ : done ++ x :: a = (done ++ [x]) ++ a)
      by (rewrite <- app_assoc; reflexivity).
    assert (Hlen : S (length done) = length (done ++ [x]))
      by (rewrite length_app; simpl; lia).
    pose proof (lookup_lt_Some _ _ _ Hj) as Hjlt.
    rewrite Happ. rewrite Hlen in Hbest.
    destruct (better x b) eqn:Hb.
    + eapply IH; [| | |exact Hbest].
      * rewrite lookup_app_r by lia. rewrite Nat.sub_diag. reflexivity.
      * apply Forall_app. split.
        -- eapply Forall_impl; [exact Hdone|]. simpl. intros y Hy.
           eapply le_trans; [apply better_le; exact Hb|exact Hy].
        -- constructor; [apply le_refl|constructor].
      * intros i y Hi Hy. rewrite lookup_app_l in Hy by exact Hi.
        eapply better_trans; [exact Hb|].
        rewrite Forall_forall in Hdone. apply Hdone.
        eapply list_elem_of_lookup_2. exact Hy.
    + eapply IH; [| | |exact Hbest].
      * rewrite lookup_app_l by exact Hjlt. exact Hj.
      * apply Forall_app. split; [exact Hdone|].
        constructor; [apply not_better_le; exact Hb|constructor].
      * intros i y Hi Hy. rewrite lookup_app_l in Hy by lia.
        exact (Hfirst i y Hi Hy).
Qed.

Lemma argbest_spec (a : list Q) (k : nat) (v : Q) :
  Np.argbest better a = Ok (k, v) ->
  a !! k = Some v /\ Forall (le v) a /\
  (forall i y, (i < k)%nat -> a !! i = Some y -> better v y = true).
Proof.
  destruct a as [|x a]; [discriminate|]. simpl. intros [= Hbest].
  apply (argbest_from_spec a [x] O x k v); [reflexivity| | |exact Hbest].
  - constructor; [apply le_refl|constructor].
  - intros i y Hi. lia.
Qed.

End Argbest.

Lemma Qltb_true (x y : Q) : Np.Qltb x y = true -> (x <= y)%Q.
Proof.
  unfold Np.Qltb. intros H. apply negb_true_iff in H.
  apply Qlt_le_weak. apply Qnot_le_lt. intros Hle.
  apply Qle_bool_iff in Hle. congruence.
Qed.

Lemma Qltb_false (x y : Q) : Np.Qltb x y = false -> (y <= x)%Q.
Proof.
  unfold Np.Qltb. intros H. apply negb_false_iff in H.
  apply Qle_bool_iff. exact H.
Qed.

Lemma Qltb_lt (x y : Q) : Np.Qltb x y = true -> (x < y)%Q.
Proof.
  unfold Np.Qltb. intros H. apply negb_true_iff in H.
  apply Qnot_le_lt. intros Hle. apply Qle_bool_iff in Hle. congruence.
Qed.

Lemma Qltb_ge (x y : Q) : (y <= x)%Q -> Np.Qltb x y = false.
Proof.
  intros Hle. unfold Np.Qltb. apply negb_false_iff. apply Qle_bool_iff. exact Hle.
Qed.

Lemma Qltb_le_trans (x y z : Q) : Np.Qltb x y = true -> (y <= z)%Q -> Np.Qltb x z = true.
Proof.
  intros Hxy Hyz. apply Qltb_lt in Hxy.
  destruct (Np.Qltb x z) eqn:Hxz; [reflexivity|].
  apply Qltb_false in Hxz. exfalso.
  apply (Qlt_irrefl x). eapply Qlt_le_trans; [exact Hxy|].
  eapply Qle_trans; eassumption.
Qed.

Lemma Qgtb_ge_trans (x y z : Q) : Np.Qltb y x = true -> (z <= y)%Q -> Np.Qltb z x = true.
Proof.
  intros Hyx Hzy. apply Qltb_lt in Hyx.
  destruct (Np.Qltb z x) eqn:Hzx; [reflexivity|].
  apply Qltb_false in Hzx. exfalso.
  apply (Qlt_irrefl y). eapply Qlt_le_trans; [exact Hyx|].
  eapply Qle_trans; eassumption.
Qed.

(** [np.argmin] and [np.min]: the least value, at the first position where
    it occurs. *)
Lemma argmin_min_spec (a : list Q) (k : nat) (v : Q) :
  Np.argmin_min a = Ok (k, v) ->
  a !! k = Some v /\ Forall (fun x => (v <= x)%Q) a /\
  (forall i y, (i < k)%nat -> a !! i = Some y -> (v < y)%Q).
Proof.
  intros Hbest.
  destruct (argbest_spec Np.Qltb Qle Qle_refl Qle_trans Qltb_true Qltb_false
              Qltb_le_trans a k v Hbest) as (Hidx & Hall & Hfirst).
  split; [exact Hidx|]. split; [exact Hall|].
  intros i y Hi Hy. apply Qltb_lt. exact (Hfirst i y Hi Hy).
Qed.

(** [np.argmax] and [np.max]: the largest value, at the first position
    where it occurs. *)
Lemma argmax_max_spec (a : list Q) (k : nat) (v : Q) :
  Np.argmax_max a = Ok (k, v) ->
  a !! k = Some v /\ Forall (fun x => (x <= v)%Q) a /\
  (forall i y, (i < k)%nat -> a !! i = Some y -> (y < v)%Q).
Proof.
  intros Hbest.
  destruct (argbest_spec (fun x y => Np.Qltb y x) (fun x y => (y <= x)%Q)
              Qle_refl
              (fun x y z Hxy Hyz => Qle_trans z y x Hyz Hxy)
              (fun x y H => Qltb_true y x H)
              (fun x y H => Qltb_false y x H)
              (fun x y z H1 H2 => Qgtb_ge_trans x y z H1 H2)
              a k v Hbest) as (Hidx & Hall & Hfirst).
  split; [exact Hidx|]. split; [exact Hall|].
  intros i y Hi Hy. apply Qltb_lt. exact (Hfirst i y Hi Hy).
Qed.

Lemma find_peak_spec (dtu : dtype) (sign : Z) (spike_up : list Q) (peak_idx : nat)
    (peak_val : Q) :
  find_peak dtu sign spike_up = Ok (peak_idx, peak_val) ->
  is_extremum dtu sign spike_up peak_idx peak_val.
Proof.
  unfold find_peak, is_extremum.
  destruct (sign =? -1); [|destruct (sign =? 1)]; intros Hpeak.
  - apply argmin_min_spec. exact Hpeak.
  - apply argmax_max_spec. exact Hpeak.
  - apply argmax_max_spec in Hpeak as (Hidx & Hall & Hfirst). unfold Np.abs in *.
    split; [rewrite list_lookup_fmap in Hidx; exact Hidx|]. split.
    + apply (proj1 (Forall_fmap (Np.abs_scalar dtu) (fun y => (y <= peak_val)%Q)
                      spike_up)) in Hall.
      exact Hall.
    + intros j x Hj Hx. apply (Hfirst j (Np.abs_scalar dtu x) Hj).
      rewrite list_lookup_fmap, Hx. reflexivity.
Qed.

(** *** Aligned events *)

Lemma assign_window_cases trace n_pad idx st :
  let st' := assign_window trace n_pad idx st in
  sp_times st' = sp_times st /\
  sp_amplitudes st' = sp_amplitudes st /\
  ((exists w t, spike st' = Some w /\ t_spike st' = Some t /\
                window_at trace n_pad idx = (Some w, Some t))
   \/ (spike st' = spike st /\ t_spike st' = t_spike st)).
Proof.
  unfold window_at, assign_window.
  destruct ((idx - n_pad >? 0) && (idx + n_pad <? Z.of_nat (length trace)));
    [|destruct (idx - n_pad <? 0);
      [|destruct (idx + n_pad >? Z.of_nat (length trace))]];
    cbn [spike t_spike sp_times sp_amplitudes];
    (split; [reflexivity|split; [reflexivity|]]);
    try (left; eexists _, _; repeat split; reflexivity).
  right. split; reflexivity.
Qed.





(** C4 (the code departs from the claim): on a recording whose channel 0
    yields no event and whose channel 1 yields one event of amplitude -50,
    the only unit is 1; line 100 reads the amplitudes at the position of
    the unit among the units (0), which is the position of channel 0 among
    the channels, so unit 1 gets the median of the empty amplitudes of
    channel 0 (NaN) and not the median -50 of its own channel. *)
Theorem amplitude_of_unit_comes_from_another_channel :
  unit_ids_of_labels [1] = [1] ->
  snd (worker (RecObject two_channel_recording) 1 5 (-1) 2 1 5 false 0 10 false)
  = Ok ([2], [(-50)%Q], [1]) /\
  Np.median [(-50)%Q] = Some (-50)%Q /\
  match snd (detect two_channel_recording None 5 2 1 (-1) 5 false None None 1 false) with
  | Ok sorting =>
      get_unit_ids sorting = [1] /\
      get_unit_spike_train sorting 1 = [2] /\
      get_unit_property sorting 1 "spike_amplitude" = Some (PFloat None)
  | Raise _ => False
  end.
Proof.
  intros Hunits. split; [vm_compute; reflexivity|]. split; [vm_compute; reflexivity|].
  unfold detect_spikes.
  change (check_if_dumpable two_channel_recording) with false.
  cbn [negb]. change (1 >? 1) with false. cbv iota.
  rewrite !io_bind_ret. cbv beta iota. change (1 >? 1) with false. cbv iota.
  match goal with
  | |- context [io_map ?f ?l] =>
      assert (Hmap : io_map f l =
                     ([GetTraces 0 0 10; GetTraces 1 0 10],
                      Ok [([], [], []); ([2], [(-50)%Q], [1])]))
        by (vm_compute; reflexivity);
      rewrite Hmap
  end.
  rewrite io_bind_ok. cbv beta. cbn [map concat fst snd app].
  unfold set_times_labels at 1 2. cbn [get_unit_ids].
  rewrite Hunits.
  vm_compute. repeat split.
Qed.

(** *** Further properties of the worker *)

(** A property of the loop variables that every recorded spike keeps is
    kept by the whole loop. *)
Lemma spike_loop_invariant (Inv : locals -> Prop) trace sign n_pad up md align
    idx_spikes n intervals :
  (forall idx st st',
     idx ∈ idx_spikes -> Inv st ->
     record_spike resample dt trace sign n_pad up align idx st = Ok st' -> Inv st') ->
  forall i_t st st',
    Inv st ->
    spike_loop resample dt trace sign n_pad up md align idx_spikes n i_t intervals st
    = Ok st' ->
    Inv st'.
Proof.
  intros Hstep. induction intervals as [|d rest IH]; intros i_t st st' Hinv; cbn [spike_loop].
  - intros [= <-]. exact Hinv.
  - destruct (selected n md i_t d).
    + destruct (idx_spikes !! i_t) as [idx|] eqn:Hlook; [|discriminate].
      cbn [of_option res_bind].
      destruct (record_spike resample dt trace sign n_pad up align idx st) as [st1|] eqn:Hrec;
        [|discriminate].
      cbn [res_bind]. apply IH.
      eapply Hstep; [|exact Hinv|exact Hrec].
      eapply list_elem_of_lookup_2. exact Hlook.
    + cbn [res_bind]. apply IH. exact Hinv.
Qed.

Lemma record_spike_amplitudes_length trace sign n_pad up align idx st st' :
  record_spike resample dt trace sign n_pad up align idx st = Ok st' ->
  length (sp_amplitudes st') = S (length (sp_amplitudes st)).
Proof.
  unfold record_spike. destruct align.
  - destruct (assign_window_cases trace n_pad idx st) as (_ & Hamps & _).
    destruct (spike (assign_window trace n_pad idx st)) as [sp|]; [|discriminate].
    destruct (t_spike (assign_window trace n_pad idx st)) as [ts|]; [|discriminate].
    cbn [of_option res_bind].
    destruct (upsampled resample up sp ts) as [[su tu]|]; [|discriminate].
    cbn [res_bind]. destruct (find_peak (upsampled_dtype dt up) sign su) as [[pi pv]|]; [|discriminate].
    cbn [res_bind]. destruct (tu !! pi); [|discriminate].
    cbn [of_option res_bind]. intros [= <-]. cbn [sp_amplitudes].
    rewrite length_app, Hamps. simpl. lia.
  - destruct (if idx <? 0 then None else trace !! Z.to_nat idx); [|discriminate].
    cbn [of_option res_bind]. intros [= <-]. cbn [sp_amplitudes].
    rewrite length_app. simpl. lia.
Qed.

(** X1: whenever the worker returns, it returns as many amplitudes as
    times, and one label, the channel id, per time. *)
Theorem worker_lists_have_one_length rec_arg ch n_std sign n_pad up md align s e verbose
    trace times amplitudes labels :
  get_traces (recording_of load_extractor_from_dict rec_arg) ch s e
  = Ok (NdArray dt trace) ->
  snd (_detect_and_align_peaks_single_channel resample load_extractor_from_dict
         rec_arg ch n_std sign n_pad up md align s e verbose)
  = Ok (times, amplitudes, labels) ->
  length amplitudes = length times /\ labels = replicate (length times) ch.
Proof.
  intros Hread. rewrite (worker_on_trace _ _ _ _ _ _ _ _ _ _ _ _ Hread).
  unfold detect_on_trace.
  destruct (spike_loop _ _ _ _ _ _ _ _ _ _ _ _ _) as [st|] eqn:Hloop; [|discriminate].
  cbn [res_bind]. intros [= <- <- <-]. split; [|reflexivity].
  revert Hloop.
  apply (spike_loop_invariant
           (fun st => length (sp_amplitudes st) = length (sp_times st))); [|reflexivity].
  intros idx st0 st1 _ Hinv Hrec.
  rewrite (record_spike_amplitudes_length _ _ _ _ _ _ _ _ Hrec).
  rewrite (record_spike_length _ _ _ _ _ _ _ _ Hrec). congruence.
Qed.

(** X2: without alignment every event is a crossing: its time is one of
    the indices beyond the threshold and its amplitude is the sample of the
    trace at that index. *)
Theorem unaligned_events_are_crossing_samples rec_arg ch n_std sign n_pad up md s e verbose
    trace times amplitudes labels :
  get_traces (recording_of load_extractor_from_dict rec_arg) ch s e
  = Ok (NdArray dt trace) ->
  snd (_detect_and_align_peaks_single_channel resample load_extractor_from_dict
         rec_arg ch n_std sign n_pad up md false s e verbose)
  = Ok (times, amplitudes, labels) ->
  Forall2 (fun t a =>
             t ∈ threshold_crossings dt trace n_std sign /\
             0 <= t /\ trace !! Z.to_nat t = Some a)
    times amplitudes.
Proof.
  intros Hread Hrun. rewrite (worker_on_trace _ _ _ _ _ _ _ _ _ _ _ _ Hread) in Hrun.
  unfold detect_on_trace in Hrun.
  destruct (spike_loop _ _ _ _ _ _ _ _ _ _ _ _ _) as [st|] eqn:Hloop; [|discriminate].
  cbn [res_bind] in Hrun. injection Hrun as <- <- _.
  revert Hloop.
  apply (spike_loop_invariant
           (fun st => Forall2 (fun t a =>
                                 t ∈ threshold_crossings dt trace n_std sign /\
                                 0 <= t /\ trace !! Z.to_nat t = Some a)
                        (sp_times st) (sp_amplitudes st))); [|constructor].
  intros idx st0 st1 Hin Hinv. unfold record_spike.
  destruct (idx <? 0) eqn:Hneg; [discriminate|].
  destruct (trace !! Z.to_nat idx) as [v|] eqn:Hv; [|discriminate].
  cbn [of_option res_bind]. intros [= <-]. cbn [sp_times sp_amplitudes].
  apply Forall2_app; [exact Hinv|]. constructor; [|constructor].
  apply Z.ltb_ge in Hneg. repeat split; assumption.
Qed.

(** Without alignment the loop appends exactly the crossings that line 129
    selects. *)
Lemma spike_loop_unaligned_selects trace sign n_pad up md n (cur : list Z) :
  forall (pre : list Z) (st : locals),
    Forall (fun k => 0 <= k < Z.of_nat (length trace)) cur ->
    exists ts vs,
      spike_loop resample dt trace sign n_pad up md false (pre ++ cur) n
        (length pre) (Np.diff cur) st
      = Ok (Locals (spike st) (t_spike st) (sp_times st ++ ts) (sp_amplitudes st ++ vs))
      /\ forall t,
           t ∈ ts <->
           exists j next,
             cur !! j = Some t /\ cur !! S j = Some next /\
             selected n md (length pre + j) (next - t) = true.
Proof.
  induction cur as [|x cur IH]; intros pre st Hvalid.
  - exists [], []. simpl. rewrite !app_nil_r. destruct st. split; [reflexivity|].
    intros t. split; [intros Hin; inversion Hin|intros (j & next & Hj & _); discriminate].
  - destruct cur as [|y rest].
    + exists [], []. simpl. rewrite !app_nil_r. destruct st. split; [reflexivity|].
      intros t. split; [intros Hin; inversion Hin|].
      intros (j & next & _ & Hnext & _). discriminate.
    + change (Np.diff (x :: y :: rest)) with ((y - x) :: Np.diff (y :: rest)).
      apply Forall_cons in Hvalid as [Hx Hvalid].
      cbn [spike_loop].
      assert (Hpre : pre ++ x :: y :: rest = (pre ++ [x]) ++ y :: rest)
        by (rewrite <- app_assoc; reflexivity).
      assert (Hlen : S (length pre) = length (pre ++ [x]))
        by (rewrite length_app; simpl; lia).
      assert (Hshift : forall j, (length (pre ++ [x]) + j = length pre + S j)%nat)
        by (intros j; rewrite <- Hlen; lia).
      destruct (selected n md (length pre) (y - x)) eqn:Hsel.
      * assert (Hlook : (pre ++ x :: y :: rest) !! length pre = Some x).
        { rewrite lookup_app_r by lia. rewrite Nat.sub_diag. reflexivity. }
        rewrite Hlook. cbn [of_option res_bind]. unfold record_spike.
        assert (Hneg : (x <? 0) = false) by (apply Z.ltb_ge; lia).
        rewrite Hneg.
        destruct (lookup_lt_is_Some_2 trace (Z.to_nat x)) as [v Hv]; [lia|].
        rewrite Hv. cbn [of_option res_bind]. rewrite Hpre, Hlen.
        destruct (IH (pre ++ [x])
                    (Locals (spike st) (t_spike st) (sp_times st ++ [x])
                       (sp_amplitudes st ++ [v])) Hvalid)
          as (ts & vs & Hloop & Hts).
        exists (x :: ts), (v :: vs). rewrite Hloop.
        cbn [spike t_spike sp_times sp_amplitudes]. rewrite <- !app_assoc.
        split; [reflexivity|]. intros t. rewrite elem_of_cons, Hts. split.
        -- intros [->|(j & next & Hj & Hnext & Hs)].
           ++ exists O, y. rewrite Nat.add_0_r. repeat split; assumption.
           ++ exists (S j), next. rewrite <- Hshift. repeat split; assumption.
        -- intros (j & next & Hj & Hnext & Hs). destruct j as [|j].
           ++ left. injection Hj as <-. reflexivity.
           ++ right. exists j, next. rewrite Hshift. repeat split; assumption.
      * cbn [res_bind]. rewrite Hpre, Hlen.
        destruct (IH (pre ++ [x]) st Hvalid) as (ts & vs & Hloop & Hts).
        exists ts, vs. split; [exact Hloop|]. intros t. rewrite Hts. split.
        -- intros (j & next & Hj & Hnext & Hs).
           exists (S j), next. rewrite <- Hshift. repeat split; assumption.
        -- intros (j & next & Hj & Hnext & Hs). destruct j as [|j].
           ++ injection Hj as <-. injection Hnext as <-.
              rewrite Nat.add_0_r in Hs. congruence.
           ++ exists j, next. rewrite Hshift. repeat split; assumption.
Qed.

(** X3: without alignment the worker returns, and the times it returns are
    exactly the crossings that have a next crossing and are either followed
    by a gap larger than min_diff_samples or second to last; the last
    crossing is never among the positions the loop visits. *)
Theorem unaligned_times_are_the_selected_crossings rec_arg ch n_std sign n_pad up md
    s e verbose trace :
  get_traces (recording_of load_extractor_from_dict rec_arg) ch s e
  = Ok (NdArray dt trace) ->
  let crossings := threshold_crossings dt trace n_std sign in
  exists times amplitudes labels,
    snd (_detect_and_align_peaks_single_channel resample load_extractor_from_dict
           rec_arg ch n_std sign n_pad up md false s e verbose)
    = Ok (times, amplitudes, labels) /\
    forall t,
      t ∈ times <->
      exists i next,
        crossings !! i = Some t /\ crossings !! S i = Some next /\
        (next - t > md \/ S (S i) = length crossings).
Proof.
  intros Hread crossings. rewrite (worker_on_trace _ _ _ _ _ _ _ _ _ _ _ _ Hread).
  unfold detect_on_trace. fold crossings.
  destruct (threshold_crossings_spec trace n_std sign) as [_ Hvalid]. fold crossings in Hvalid.
  destruct (spike_loop_unaligned_selects trace sign n_pad up md
              (length (Np.diff crossings)) crossings [] init_locals Hvalid)
    as (ts & vs & Hloop & Hts).
  simpl app in Hloop. simpl length in Hloop. rewrite Hloop. cbn [res_bind sp_times sp_amplitudes init_locals app].
  eexists _, _, _. split; [reflexivity|].
  intros t. rewrite Hts. rewrite diff_length.
  split; intros (i & next & Hi & Hnext & Hsel); exists i, next;
    (split; [exact Hi|split; [exact Hnext|]]);
    apply lookup_lt_Some in Hnext; unfold selected in *; simpl Nat.add in *.
  - apply orb_true_iff in Hsel as [Hgap|Hlast].
    + left. apply Z.gtb_lt in Hgap. lia.
    + right. apply Z.eqb_eq in Hlast. lia.
  - apply orb_true_iff. destruct Hsel as [Hgap|Hlast].
    + left. apply Z.gtb_lt. lia.
    + right. apply Z.eqb_eq. lia.
Qed.

(** *** Aligned runs without resampling *)

Lemma assign_window_ok trace n_pad idx st :
  1 <= n_pad ->
  0 <= idx < Z.of_nat (length trace) ->
  window_ok st ->
  window_ok (assign_window trace n_pad idx st).
Proof.
  intros Hpad Hidx Hok. unfold assign_window.
  destruct ((idx - n_pad >? 0) && (idx + n_pad <? Z.of_nat (length trace))) eqn:H1.
  - apply andb_true_iff in H1 as [Hlo Hhi].
    apply Z.gtb_lt in Hlo. apply Z.ltb_lt in Hhi.
    unfold window_ok, Np.slice, Np.arange, Np.clip_index. cbn [spike t_spike from_option].
    rewrite length_take, length_drop, length_map, length_seq.
    destruct (idx - n_pad <? 0) eqn:Ha; [apply Z.ltb_lt in Ha; lia|].
    destruct (idx + n_pad <? 0) eqn:Hb; [apply Z.ltb_lt in Hb; lia|].
    lia.
  - destruct (idx - n_pad <? 0) eqn:H2.
    + apply Z.ltb_lt in H2.
      unfold window_ok, Np.slice, Np.pad, Np.arange, Np.clip_index.
      cbn [spike t_spike from_option].
      rewrite !length_app, !length_replicate, length_take, length_drop, length_map, length_seq.
      destruct (idx + n_pad <? 0) eqn:Hb; [apply Z.ltb_lt in Hb; lia|].
      lia.
    + destruct (idx + n_pad >? Z.of_nat (length trace)) eqn:H3; [|exact Hok].
      apply Z.ltb_ge in H2. apply Z.gtb_lt in H3.
      unfold window_ok, Np.slice, Np.pad, Np.arange, Np.clip_index.
      cbn [spike t_spike from_option].
      rewrite !length_app, !length_replicate, length_take, length_drop, length_map, length_seq.
      destruct (idx - n_pad <? 0) eqn:Ha; [apply Z.ltb_lt in Ha; lia|].
      lia.
Qed.

Lemma find_peak_in_range dtu sign su pi pv :
  find_peak dtu sign su = Ok (pi, pv) -> (pi < length su)%nat.
Proof.
  intros Hpeak. apply find_peak_spec in Hpeak. unfold is_extremum in Hpeak.
  destruct (sign =? -1); [|destruct (sign =? 1)]; destruct Hpeak as [Hidx _].
  - eapply lookup_lt_Some. exact Hidx.
  - eapply lookup_lt_Some. exact Hidx.
  - destruct (su !! pi) eqn:Hl; [|discriminate]. eapply lookup_lt_Some. exact Hl.
Qed.

Lemma find_peak_nonempty dtu sign su :
  (0 < length su)%nat -> exists pi pv, find_peak dtu sign su = Ok (pi, pv).
Proof.
  intros Hlen. destruct su as [|x su]; [simpl in Hlen; lia|].
  unfold find_peak, Np.argmin_min, Np.argmax_max, Np.abs, Np.argbest.
  destruct (sign =? -1); [|destruct (sign =? 1)]; simpl;
    match goal with
    | |- context [Np.argbest_from ?b ?i ?p ?a] =>
        destruct (Np.argbest_from b i p a) as [pi pv]; exists pi, pv; reflexivity
    end.
Qed.

(** With a window that is in order, and no resampling, recording a spike
    fails only when the window is still unbound. *)
Lemma record_spike_aligned_outcome trace sign n_pad up idx st :
  up <= 1 -> 1 <= n_pad ->
  0 <= idx < Z.of_nat (length trace) ->
  window_ok st ->
  match record_spike resample dt trace sign n_pad up true idx st with
  | Ok st' => window_ok st'
  | Raise e => e = UnboundLocalError "spike"
  end.
Proof.
  intros Hup Hpad Hidx Hok. unfold record_spike.
  pose proof (assign_window_ok trace n_pad idx st Hpad Hidx Hok) as Hok'.
  unfold window_ok in Hok'.
  destruct (spike (assign_window trace n_pad idx st)) as [sp|]; [|reflexivity].
  destruct (t_spike (assign_window trace n_pad idx st)) as [ts|]; [|contradiction].
  cbn [of_option res_bind]. unfold upsampled.
  assert (Hno : (up >? 1) = false) by (rewrite Z.gtb_ltb; apply Z.ltb_ge; lia).
  rewrite Hno. cbn [res_bind].
  destruct (find_peak_nonempty (upsampled_dtype dt up) sign sp) as (pi & pv & Hpeak);
    [lia|].
  rewrite Hpeak. cbn [res_bind].
  apply find_peak_in_range in Hpeak.
  destruct (lookup_lt_is_Some_2 (map inject_Z ts) pi) as [mt Hmt];
    [rewrite length_map; lia|].
  rewrite Hmt. cbn [of_option res_bind]. unfold window_ok. cbn [spike t_spike]. lia.
Qed.

(** What every recorded spike guarantees of its outcome, the loop
    guarantees of its own. *)
Lemma spike_loop_outcome (Inv : locals -> Prop) (Err : exn -> Prop)
    trace sign n_pad up md align idx_spikes n intervals :
  (forall idx st,
     idx ∈ idx_spikes -> Inv st ->
     match record_spike resample dt trace sign n_pad up align idx st with
     | Ok st' => Inv st'
     | Raise e => Err e
     end) ->
  forall i_t st,
    (i_t + length intervals <= length idx_spikes)%nat ->
    Inv st ->
    match spike_loop resample dt trace sign n_pad up md align idx_spikes n i_t intervals st with
    | Ok st' => Inv st'
    | Raise e => Err e
    end.
Proof.
  intros Hstep. induction intervals as [|d rest IH]; intros i_t st Hlen Hinv; cbn [spike_loop].
  - exact Hinv.
  - simpl length in Hlen. destruct (selected n md i_t d).
    + destruct (lookup_lt_is_Some_2 idx_spikes i_t) as [idx Hlook]; [lia|].
      rewrite Hlook. cbn [of_option res_bind].
      pose proof (Hstep idx st (list_elem_of_lookup_2 _ _ _ Hlook) Hinv) as Hrec.
      destruct (record_spike resample dt trace sign n_pad up align idx st) as [st1|e];
        cbn [res_bind]; [|exact Hrec].
      apply IH; [lia|exact Hrec].
    + cbn [res_bind]. apply IH; [lia|exact Hinv].
Qed.

(** X4: with align = True, no resampling (upsample <= 1) and a window of
    at least one sample on each side (n_pad >= 1), the only exception the
    worker can raise is the UnboundLocalError of a window that no branch
    of lines 133-145 has assigned: the extremum search never meets an
    empty window and the time axis is never shorter than the window. *)
Theorem aligned_run_fails_only_unbound rec_arg ch n_std sign n_pad up md s e verbose
    trace err :
  get_traces (recording_of load_extractor_from_dict rec_arg) ch s e
  = Ok (NdArray dt trace) ->
  up <= 1 ->
  1 <= n_pad ->
  snd (_detect_and_align_peaks_single_channel resample load_extractor_from_dict
         rec_arg ch n_std sign n_pad up md true s e verbose)
  = Raise err ->
  err = UnboundLocalError "spike".
Proof.
  intros Hread Hup Hpad. rewrite (worker_on_trace _ _ _ _ _ _ _ _ _ _ _ _ Hread).
  unfold detect_on_trace.
  set (crossings := threshold_crossings dt trace n_std sign).
  destruct (threshold_crossings_spec trace n_std sign) as [_ Hvalid]. fold crossings in Hvalid.
  pose proof (spike_loop_outcome window_ok (fun e => e = UnboundLocalError "spike")
                trace sign n_pad up md true crossings (length (Np.diff crossings))
                (Np.diff crossings)) as Hloop.
  specialize (Hloop ltac:(intros idx st Hin Hok;
                          apply record_spike_aligned_outcome; try assumption;
                          rewrite Forall_forall in Hvalid; apply Hvalid; exact Hin)).
  specialize (Hloop O init_locals).
  rewrite diff_length in Hloop at 1.
  specialize (Hloop ltac:(simpl; lia) I).
  destruct (spike_loop _ _ _ _ _ _ _ _ _ _ _ _ _) as [st|e0]; cbn [res_bind].
  - discriminate.
  - intros [= <-]. exact Hloop.
Qed.

Lemma slice_interior_lookup (trace : list Q) (lo hi : Z) (j : nat) :
  0 <= lo -> lo <= hi -> hi <= Z.of_nat (length trace) ->
  (j < Z.to_nat (hi - lo))%nat ->
  Np.slice (Some lo) (Some hi) trace !! j = trace !! (Z.to_nat lo + j)%nat.
Proof.
  intros Hlo Hle Hhi Hj. unfold Np.slice, Np.clip_index. cbn [from_option].
  destruct (lo <? 0) eqn:Ha; [apply Z.ltb_lt in Ha; lia|].
  destruct (hi <? 0) eqn:Hb; [apply Z.ltb_lt in Hb; lia|].
  rewrite lookup_take_lt by lia. rewrite lookup_drop. f_equal. lia.
Qed.

Lemma slice_interior_length (trace : list Q) (lo hi : Z) :
  0 <= lo -> lo <= hi -> hi <= Z.of_nat (length trace) ->
  length (Np.slice (Some lo) (Some hi) trace) = Z.to_nat (hi - lo).
Proof.
  intros Hlo Hle Hhi. unfold Np.slice, Np.clip_index. cbn [from_option].
  destruct (lo <? 0) eqn:Ha; [apply Z.ltb_lt in Ha; lia|].
  destruct (hi <? 0) eqn:Hb; [apply Z.ltb_lt in Hb; lia|].
  rewrite length_take, length_drop. lia.
Qed.

Lemma arange_lookup (lo hi : Z) (j : nat) :
  (j < Z.to_nat (hi - lo))%nat -> Np.arange lo hi !! j = Some (lo + Z.of_nat j).
Proof.
  intros Hj. unfold Np.arange. rewrite list_lookup_fmap.
  rewrite lookup_seq_lt by exact Hj. reflexivity.
Qed.

Lemma int_inject_Z (z : Z) : Np.int (inject_Z z) = z.
Proof. unfold Np.int, inject_Z. simpl. apply Z.quot_1_r. Qed.

(** The extremum of an interior slice is the extremum of the range of the
    trace it is cut from. *)
Lemma is_extremum_slice sign (trace : list Q) (lo hi : Z) (pi : nat) (pv : Q) :
  0 <= lo -> lo <= hi -> hi <= Z.of_nat (length trace) ->
  is_extremum dt sign (Np.slice (Some lo) (Some hi) trace) pi pv ->
  extreme_in_range dt sign trace lo hi (lo + Z.of_nat pi) pv.
Proof.
  intros Hlo Hle Hhi Hext.
  assert (Hpi : (pi < Z.to_nat (hi - lo))%nat).
  { rewrite <- (slice_interior_length trace lo hi) by assumption.
    unfold is_extremum in Hext.
    destruct (sign =? -1); [|destruct (sign =? 1)]; destruct Hext as [Hidx _].
    - eapply lookup_lt_Some; exact Hidx.
    - eapply lookup_lt_Some; exact Hidx.
    - destruct (_ !! pi) eqn:Hl; [|discriminate]. eapply lookup_lt_Some; exact Hl. }
  assert (Hat : trace !! Z.to_nat (lo + Z.of_nat pi)
                = Np.slice (Some lo) (Some hi) trace !! pi).
  { rewrite slice_interior_lookup by assumption. f_equal. lia. }
  assert (Hin : forall k x, lo <= k < hi -> trace !! Z.to_nat k = Some x ->
                            x ∈ Np.slice (Some lo) (Some hi) trace).
  { intros k x Hk Hx. apply list_elem_of_lookup. exists (Z.to_nat (k - lo)).
    rewrite slice_interior_lookup by (try assumption; lia).
    rewrite <- Hx. f_equal. lia. }
  split; [lia|]. unfold is_extremum in Hext.
  destruct (sign =? -1); [|destruct (sign =? 1)]; destruct Hext as [Hidx Hall];
    rewrite Hat; (split; [exact Hidx|]);
    intros k x Hk Hx; rewrite Forall_forall in Hall; apply Hall; eapply Hin; eassumption.
Qed.

(** At an anchor farther than [n_pad] from both ends of the trace, and
    without resampling, a spike is recorded at the extremum of the samples
    from [idx - n_pad] to [idx + n_pad - 1]. *)
Lemma record_spike_interior trace sign n_pad up idx st :
  up <= 1 -> 1 <= n_pad ->
  n_pad < idx -> idx + n_pad < Z.of_nat (length trace) ->
  exists t a w ts,
    record_spike resample dt trace sign n_pad up true idx st
    = Ok (Locals (Some w) (Some ts) (sp_times st ++ [t]) (sp_amplitudes st ++ [a]))
    /\ extreme_in_range dt sign trace (idx - n_pad) (idx + n_pad) t a.
Proof.
  intros Hup Hpad Hlo Hhi. unfold record_spike, assign_window.
  assert (H1 : (idx - n_pad >? 0) && (idx + n_pad <? Z.of_nat (length trace)) = true).
  { apply andb_true_iff. split; [apply Z.gtb_lt|apply Z.ltb_lt]; lia. }
  rewrite H1. cbn [spike t_spike sp_times sp_amplitudes of_option res_bind].
  unfold upsampled, upsampled_dtype.
  assert (Hno : (up >? 1) = false) by (rewrite Z.gtb_ltb; apply Z.ltb_ge; lia).
  rewrite Hno. cbn [res_bind].
  set (w := Np.slice (Some (idx - n_pad)) (Some (idx + n_pad)) trace).
  assert (Hlen : length w = Z.to_nat (idx + n_pad - (idx - n_pad)))
    by (apply slice_interior_length; lia).
  destruct (find_peak_nonempty dt sign w) as (pi & pv & Hpeak); [lia|].
  rewrite Hpeak. cbn [res_bind].
  pose proof (find_peak_in_range _ _ _ _ _ Hpeak) as Hpi.
  rewrite list_lookup_fmap, arange_lookup by lia.
  cbn [fmap option_fmap option_map of_option res_bind].
  rewrite int_inject_Z.
  eexists _, _, _, _. split; [reflexivity|].
  apply is_extremum_slice; try lia. apply find_peak_spec. exact Hpeak.
Qed.

(** X5: with align = True, no resampling, n_pad >= 1 and every crossing
    farther than n_pad from both ends of the trace, the worker returns,
    and every event sits at the extremum of the 2 * n_pad samples around a
    crossing: its time is within n_pad of that crossing, its amplitude is
    the sample at that time, and no sample of the window is beyond it;
    when both signs are detected the amplitude is [np.abs] of the sample,
    no sample of the window has a larger [np.abs], and [np.abs] leaves the
    least value of a signed integer type as it is. *)
Theorem interior_events_sit_at_window_extrema rec_arg ch n_std sign n_pad up md s e verbose
    trace :
  get_traces (recording_of load_extractor_from_dict rec_arg) ch s e
  = Ok (NdArray dt trace) ->
  let crossings := threshold_crossings dt trace n_std sign in
  up <= 1 ->
  1 <= n_pad ->
  (forall idx, idx ∈ crossings -> n_pad < idx /\ idx + n_pad < Z.of_nat (length trace)) ->
  exists times amplitudes labels,
    snd (_detect_and_align_peaks_single_channel resample load_extractor_from_dict
           rec_arg ch n_std sign n_pad up md true s e verbose)
    = Ok (times, amplitudes, labels) /\
    Forall2 (fun t a =>
               exists idx,
                 idx ∈ crossings /\
                 extreme_in_range dt sign trace (idx - n_pad) (idx + n_pad) t a)
      times amplitudes.
Proof.
  intros Hread crossings Hup Hpad Hinterior.
  rewrite (worker_on_trace _ _ _ _ _ _ _ _ _ _ _ _ Hread).
  unfold detect_on_trace. fold crossings.
  pose proof (spike_loop_outcome
                (fun st => Forall2 (fun t a =>
                                      exists idx,
                                        idx ∈ crossings /\
                                        extreme_in_range dt sign trace (idx - n_pad)
                                          (idx + n_pad) t a)
                             (sp_times st) (sp_amplitudes st))
                (fun _ => False)
                trace sign n_pad up md true crossings (length (Np.diff crossings))
                (Np.diff crossings)) as Hloop.
  specialize (Hloop ltac:(intros idx st Hin Hinv;
                          destruct (Hinterior idx Hin) as [Hlo Hhi];
                          destruct (record_spike_interior trace sign n_pad up idx st
                                      Hup Hpad Hlo Hhi) as (t & a & w & ts & Hrec & Hext);
                          rewrite Hrec; cbn [sp_times sp_amplitudes];
                          apply Forall2_app; [exact Hinv|];
                          constructor; [|constructor]; exists idx; split; assumption)).
  specialize (Hloop O init_locals).
  rewrite diff_length in Hloop at 1.
  specialize (Hloop ltac:(simpl; lia) ltac:(constructor)).
  destruct (spike_loop _ _ _ _ _ _ _ _ _ _ _ _ _) as [st|e0]; cbn [res_bind]; [|contradiction].
  eexists _, _, _. split; [reflexivity|exact Hloop].
Qed.

(** With a window of no sample (n_pad = 0) and none bound yet, recording
    a spike fails: away from index 0 the window is empty, at index 0 no
    branch assigns one. *)
Lemma record_spike_no_pad trace sign up idx st :
  up <= 1 ->
  0 <= idx < Z.of_nat (length trace) ->
  spike st = None ->
  exists err,
    record_spike resample dt trace sign 0 up true idx st = Raise err /\
    (err = UnboundLocalError "spike" \/ exists msg, err = ValueError msg).
Proof.
  intros Hup Hidx Hnone. unfold record_spike, assign_window.
  rewrite Z.sub_0_r, Z.add_0_r.
  assert (Hlt : (idx <? Z.of_nat (length trace)) = true) by (apply Z.ltb_lt; lia).
  assert (Hneg : (idx <? 0) = false) by (apply Z.ltb_ge; lia).
  assert (Hgt : (idx >? Z.of_nat (length trace)) = false)
    by (rewrite Z.gtb_ltb; apply Z.ltb_ge; lia).
  rewrite Hlt, Hneg, Hgt, andb_true_r.
  destruct (idx >? 0) eqn:Hpos.
  - cbn [spike t_spike of_option res_bind]. unfold upsampled.
    assert (Hno : (up >? 1) = false) by (rewrite Z.gtb_ltb; apply Z.ltb_ge; lia).
    rewrite Hno. cbn [res_bind].
    assert (Hempty : Np.slice (Some idx) (Some idx) trace = []).
    { unfold Np.slice. cbn [from_option]. rewrite Z.sub_diag. reflexivity. }
    rewrite Hempty. eexists. split.
    + unfold find_peak. destruct (sign =? -1); [|destruct (sign =? 1)]; reflexivity.
    + right. eexists. reflexivity.
  - rewrite Hnone. eexists. split; [reflexivity|]. left. reflexivity.
Qed.

Lemma spike_loop_no_pad trace sign up md idx_spikes n intervals :
  up <= 1 ->
  Forall (fun k => 0 <= k < Z.of_nat (length trace)) idx_spikes ->
  forall i_t st,
    intervals <> [] ->
    (i_t + length intervals = n)%nat ->
    (i_t + length intervals <= length idx_spikes)%nat ->
    spike st = None ->
    exists err,
      spike_loop resample dt trace sign 0 up md true idx_spikes n i_t intervals st
      = Raise err /\
      (err = UnboundLocalError "spike" \/ exists msg, err = ValueError msg).
Proof.
  intros Hup Hvalid. induction intervals as [|d rest IH];
    intros i_t st Hne Hn Hlen Hnone; [contradiction|].
  simpl length in *. cbn [spike_loop].
  destruct (selected n md i_t d) eqn:Hsel.
  - destruct (lookup_lt_is_Some_2 idx_spikes i_t) as [idx Hlook]; [lia|].
    rewrite Hlook. cbn [of_option res_bind].
    rewrite Forall_forall in Hvalid.
    destruct (record_spike_no_pad trace sign up idx st Hup
                (Hvalid idx (list_elem_of_lookup_2 _ _ _ Hlook)) Hnone)
      as (err & Hrec & Herr).
    rewrite Hrec. exists err. split; [reflexivity|exact Herr].
  - cbn [res_bind]. apply IH; try lia; try assumption.
    intros ->. simpl in Hn. unfold selected in Hsel.
    apply orb_false_iff in Hsel as [_ Hlast]. apply Z.eqb_neq in Hlast. lia.
Qed.

(** X6: with align = True, no resampling and n_pad = 0 (an n_pad_ms of
    less than one sample), the worker raises as soon as the trace has two
    crossings: the window of the first selected crossing is empty
    (ValueError of the extremum search) or, at index 0, unbound. *)
Theorem zero_pad_aligned_run_raises rec_arg ch n_std sign up md s e verbose trace :
  get_traces (recording_of load_extractor_from_dict rec_arg) ch s e
  = Ok (NdArray dt trace) ->
  up <= 1 ->
  (2 <= length (threshold_crossings dt trace n_std sign))%nat ->
  exists err,
    snd (_detect_and_align_peaks_single_channel resample load_extractor_from_dict
           rec_arg ch n_std sign 0 up md true s e verbose)
    = Raise err /\
    (err = UnboundLocalError "spike" \/ exists msg, err = ValueError msg).
Proof.
  intros Hread Hup Htwo. rewrite (worker_on_trace _ _ _ _ _ _ _ _ _ _ _ _ Hread).
  unfold detect_on_trace.
  set (crossings := threshold_crossings dt trace n_std sign) in *.
  destruct (threshold_crossings_spec trace n_std sign) as [_ Hvalid]. fold crossings in Hvalid.
  destruct (spike_loop_no_pad trace sign up md crossings (length (Np.diff crossings))
              (Np.diff crossings) Hup Hvalid O init_locals) as (err & Hloop & Herr).
  - intros Hnil. apply (f_equal length) in Hnil. rewrite diff_length in Hnil.
    simpl in Hnil. lia.
  - reflexivity.
  - rewrite diff_length. simpl. lia.
  - reflexivity.
  - rewrite Hloop. exists err. split; [reflexivity|exact Herr].
Qed.

(** *** The threshold *)

(** A property of the samples that the mean of two of them keeps holds
    of the median. *)
Lemma median_closed (P : Q -> Prop) (a : list Q) (m : Q) :
  (forall x y, P x -> P y -> P ((x + y) / 2)%Q) ->
  Forall P a ->
  Np.median a = Some m ->
  P m.
Proof.
  intros Hmean Hall. unfold Np.median.
  assert (Hsorted : Forall P (Np.sort a)).
  { unfold Np.sort. eapply Permutation_Forall; [|exact Hall].
    symmetry. apply merge_sort_Permutation. }
  rewrite Forall_forall in Hsorted.
  destruct (length (Np.sort a)) as [|n] eqn:Hlen; [discriminate|].
  destruct (Nat.even (S n)).
  - destruct (Np.sort a !! (S n / 2 - 1)%nat) as [x|] eqn:Hx; [|discriminate].
    destruct (Np.sort a !! (S n / 2)%nat) as [y|] eqn:Hy; [|discriminate].
    intros [= <-].
    apply list_elem_of_lookup_2 in Hx. apply list_elem_of_lookup_2 in Hy.
    apply Hmean; apply Hsorted; assumption.
  - intros Hm. apply list_elem_of_lookup_2 in Hm. apply Hsorted. exact Hm.
Qed.

Lemma scaled_abs_nonneg (x : Q) : (0 <= Qabs x / (6745 # 10000))%Q.
Proof.
  apply Qle_shift_div_l; [reflexivity|]. rewrite Qmult_0_l. apply Qabs_nonneg.
Qed.

(** On an array that does not hold the least value of its type, [np.abs]
    is the absolute value. *)
Lemma abs_scalar_no_minimum (a : list Q) (x : Q) :
  holds_no_minimum dt a -> x ∈ a -> Np.abs_scalar dt x = Qabs x.
Proof.
  unfold holds_no_minimum, Np.abs_scalar. destruct dt as [|bits]; [reflexivity|].
  intros Hall Hx. rewrite Forall_forall in Hall. specialize (Hall x Hx).
  destruct (Qeq_bool x (Np.int_min bits)) eqn:Heq; [|reflexivity].
  apply Qeq_bool_iff in Heq. contradiction.
Qed.

Lemma abs_scalar_zero (x : Q) : (x == 0)%Q -> (Np.abs_scalar dt x == 0)%Q.
Proof.
  intros Hx. unfold Np.abs_scalar. destruct dt as [|bits].
  - rewrite Hx. reflexivity.
  - destruct (Qeq_bool x (Np.int_min bits)); [exact Hx|]. rewrite Hx. reflexivity.
Qed.

(** The noise scale of such an array, when it is a number, is not
    negative. *)
Lemma noise_scale_nonneg (trace : list Q) (m : Q) :
  holds_no_minimum dt trace ->
  noise_scale dt trace = Some m -> (0 <= m)%Q.
Proof.
  intros Hno. unfold noise_scale, Np.abs.
  apply (median_closed (fun x => (0 <= x)%Q)).
  - intros x y Hx Hy. apply Qle_shift_div_l; [reflexivity|]. lra.
  - rewrite Forall_forall. intros x Hx.
    apply list_elem_of_fmap in Hx as (y & -> & Hy).
    apply list_elem_of_fmap in Hy as (z & -> & Hz).
    rewrite (abs_scalar_no_minimum trace z Hno Hz).
    apply scaled_abs_nonneg.
Qed.

(** The noise scale of a flat trace, when it is a number, is zero. *)
Lemma noise_scale_flat (trace : list Q) (m : Q) :
  Forall (fun x => (x == 0)%Q) trace ->
  noise_scale dt trace = Some m -> (m == 0)%Q.
Proof.
  intros Hflat. unfold noise_scale, Np.abs.
  apply (median_closed (fun x => (x == 0)%Q)).
  - intros x y Hx Hy. rewrite Hx, Hy. reflexivity.
  - rewrite Forall_forall in Hflat |- *. intros x Hx.
    apply list_elem_of_fmap in Hx as (y & -> & Hy).
    apply list_elem_of_fmap in Hy as (z & -> & Hz).
    rewrite (abs_scalar_zero z (Hflat z Hz)). reflexivity.
Qed.

Lemma where_from_elem (mask : list bool) (i k : Z) :
  k ∈ Np.where_from i mask ->
  exists j : nat, k = i + Z.of_nat j /\ mask !! j = Some true.
Proof.
  revert i. induction mask as [|b mask IH]; intros i; simpl.
  - intros Hin. inversion Hin.
  - assert (Hrest : k ∈ Np.where_from (i + 1) mask ->
                    exists j : nat, k = i + Z.of_nat j /\ (b :: mask) !! j = Some true).
    { intros Hin. destruct (IH _ Hin) as (j & -> & Hj).
      exists (S j). split; [lia|exact Hj]. }
    destruct b; [|exact Hrest].
    intros Hin. apply elem_of_cons in Hin as [->|Hin]; [|exact (Hrest Hin)].
    exists O. split; [lia|reflexivity].
Qed.

Lemma where_from_all_false (mask : list bool) (i : Z) :
  Forall (fun b => b = false) mask -> Np.where_from i mask = [].
Proof.
  revert i. induction mask as [|b mask IH]; intros i Hall; [reflexivity|].
  apply Forall_cons in Hall as [-> Hall]. simpl. apply IH. exact Hall.
Qed.

(** A crossing is the index of a sample that the comparison of lines
    115-123 finds beyond the threshold. *)
Lemma crossing_is_beyond (f : Q -> bool) (trace : list Q) (t : Z) (a : Q) :
  t ∈ Np.where_ (map f trace) -> 0 <= t -> trace !! Z.to_nat t = Some a -> f a = true.
Proof.
  intros Hin Hpos Hat. apply where_from_elem in Hin as (j & -> & Hj).
  rewrite list_lookup_fmap in Hj.
  replace (Z.to_nat (0 + Z.of_nat j)) with j in Hat by lia.
  rewrite Hat in Hj. injection Hj as Hj. exact Hj.
Qed.

(** X7: a flat trace (every sample zero) has threshold zero or NaN and no
    sample strictly beyond it: whatever the parameters, the worker returns
    no event and raises nothing. *)
Theorem flat_trace_has_no_event rec_arg ch n_std sign n_pad up md align s e verbose
    trace :
  get_traces (recording_of load_extractor_from_dict rec_arg) ch s e
  = Ok (NdArray dt trace) ->
  Forall (fun x => (x == 0)%Q) trace ->
  snd (_detect_and_align_peaks_single_channel resample load_extractor_from_dict
         rec_arg ch n_std sign n_pad up md align s e verbose)
  = Ok ([], [], []).
Proof.
  intros Hread Hflat. rewrite (worker_on_trace _ _ _ _ _ _ _ _ _ _ _ _ Hread).
  unfold detect_on_trace.
  pose proof (proj1 (Forall_forall _ _) Hflat) as Helem.
  assert (Hnone : threshold_crossings dt trace n_std sign = []).
  { assert (Hbelow : forall c x, x ∈ trace ->
                       below ((fun m => (c * m)%Q) <$> noise_scale dt trace) x = false).
    { intros c x Hx. destruct (noise_scale dt trace) as [m|] eqn:Hm; [|reflexivity].
      cbn. apply Qltb_ge.
      rewrite (Helem x Hx), (noise_scale_flat trace m Hflat Hm). lra. }
    assert (Habove : forall c x, x ∈ trace ->
                       above ((fun m => (c * m)%Q) <$> noise_scale dt trace) x = false).
    { intros c x Hx. destruct (noise_scale dt trace) as [m|] eqn:Hm; [|reflexivity].
      cbn. apply Qltb_ge.
      rewrite (Helem x Hx), (noise_scale_flat trace m Hflat Hm). lra. }
    assert (Hboth : forall x, x ∈ trace ->
                      below (Qopp <$> ((fun m => (n_std * m)%Q) <$> noise_scale dt trace)) x = false).
    { intros x Hx. destruct (noise_scale dt trace) as [m|] eqn:Hm; [|reflexivity].
      cbn. apply Qltb_ge.
      rewrite (Helem x Hx), (noise_scale_flat trace m Hflat Hm). lra. }
    unfold threshold_crossings, Np.where_.
    destruct (sign =? -1); [|destruct (sign =? 1)]; apply where_from_all_false;
      rewrite Forall_forall; intros b Hb;
      apply list_elem_of_fmap in Hb as (x & -> & Hx).
    - apply (Hbelow (- n_std)%Q). exact Hx.
    - apply Habove. exact Hx.
    - rewrite Habove, Hboth by exact Hx. reflexivity. }
  rewrite Hnone. reflexivity.
Qed.

(** Without alignment every amplitude is a sample that the comparison of
    lines 115-123 finds beyond the threshold. *)
Lemma unaligned_amplitudes_are_beyond trace ch n_std sign n_pad up md times amplitudes labels
    (f : Q -> bool) :
  threshold_crossings dt trace n_std sign = Np.where_ (map f trace) ->
  detect_on_trace resample dt trace ch n_std sign n_pad up md false
  = Ok (times, amplitudes, labels) ->
  Forall (fun a => f a = true) amplitudes.
Proof.
  intros Hcross. unfold detect_on_trace.
  destruct (spike_loop _ _ _ _ _ _ _ _ _ _ _ _ _) as [st|] eqn:Hloop; [|discriminate].
  cbn [res_bind]. intros [= _ <- _]. revert Hloop.
  apply (spike_loop_invariant (fun st => Forall (fun a => f a = true) (sp_amplitudes st)));
    [|constructor].
  intros idx st0 st1 Hin Hinv. unfold record_spike.
  destruct (idx <? 0) eqn:Hneg; [discriminate|].
  destruct (trace !! Z.to_nat idx) as [v|] eqn:Hv; [|discriminate].
  cbn [of_option res_bind]. intros [= <-]. cbn [sp_amplitudes].
  apply Forall_app. split; [exact Hinv|]. constructor; [|constructor].
  rewrite Hcross in Hin. apply Z.ltb_ge in Hneg.
  eapply crossing_is_beyond; eassumption.
Qed.

(** X8: on a trace that holds no sample at the least value of a signed
    integer type (so that [np.abs] is the absolute value of every sample
    and the noise scale is not negative), with a sensitivity that is not
    negative and without alignment, every amplitude has the sign that is
    detected: negative for detect_sign = -1, positive for detect_sign = 1,
    and not zero when both signs are detected. *)
Theorem unaligned_amplitudes_have_the_detected_sign rec_arg ch n_std sign n_pad up md
    s e verbose trace times amplitudes labels :
  get_traces (recording_of load_extractor_from_dict rec_arg) ch s e
  = Ok (NdArray dt trace) ->
  holds_no_minimum dt trace ->
  (0 <= n_std)%Q ->
  snd (_detect_and_align_peaks_single_channel resample load_extractor_from_dict
         rec_arg ch n_std sign n_pad up md false s e verbose)
  = Ok (times, amplitudes, labels) ->
  Forall (fun a =>
            if sign =? -1 then (a < 0)%Q
            else if sign =? 1 then (0 < a)%Q
            else ~ (a == 0)%Q)
    amplitudes.
Proof.
  intros Hread Hno Hstd. rewrite (worker_on_trace _ _ _ _ _ _ _ _ _ _ _ _ Hread).
  intros Hrun.
  assert (Hthresh : forall m, noise_scale dt trace = Some m -> (0 <= n_std * m)%Q).
  { intros m Hm. apply Qmult_le_0_compat; [exact Hstd|].
    exact (noise_scale_nonneg trace m Hno Hm). }
  destruct (sign =? -1) eqn:H1; [|destruct (sign =? 1) eqn:H2].
  - eapply Forall_impl.
    + eapply unaligned_amplitudes_are_beyond; [|exact Hrun].
      unfold threshold_crossings. rewrite H1. reflexivity.
    + cbn beta. intros a Ha. destruct (noise_scale dt trace) as [m|] eqn:Hm; [|discriminate].
      cbn in Ha. apply Qltb_lt in Ha. specialize (Hthresh m eq_refl). lra.
  - eapply Forall_impl.
    + eapply unaligned_amplitudes_are_beyond; [|exact Hrun].
      unfold threshold_crossings. rewrite H1, H2. reflexivity.
    + cbn beta. intros a Ha. destruct (noise_scale dt trace) as [m|] eqn:Hm; [|discriminate].
      cbn in Ha. apply Qltb_lt in Ha. specialize (Hthresh m eq_refl). lra.
  - eapply Forall_impl.
    + eapply unaligned_amplitudes_are_beyond; [|exact Hrun].
      unfold threshold_crossings. rewrite H1, H2. reflexivity.
    + cbn beta. intros a Ha. destruct (noise_scale dt trace) as [m|] eqn:Hm;
        [|cbn in Ha; discriminate Ha].
      cbn in Ha. specialize (Hthresh m eq_refl).
      apply orb_true_iff in Ha as [Ha|Ha]; apply Qltb_lt in Ha; lra.
Qed.

(** X15: the window that lines 133-145 assign at an index of the trace,
    for n_pad >= 0, has a time axis of 2 * n_pad values; the window itself
    has 2 * n_pad samples too, except when it overflows the trace on both
    sides, where only the left side is padded and it has len(trace) + n_pad
    - idx samples. *)
Theorem assigned_window_width trace n_pad idx w t :
  0 <= n_pad ->
  0 <= idx < Z.of_nat (length trace) ->
  window_at trace n_pad idx = (Some w, Some t) ->
  length t = Z.to_nat (2 * n_pad) /\
  length w = if (idx - n_pad <? 0) && (idx + n_pad >? Z.of_nat (length trace))
             then Z.to_nat (Z.of_nat (length trace) + n_pad - idx)
             else Z.to_nat (2 * n_pad).
Proof.
  intros Hpad Hidx. unfold window_at, assign_window.
  destruct ((idx - n_pad >? 0) && (idx + n_pad <? Z.of_nat (length trace))) eqn:H1.
  - apply andb_true_iff in H1 as [Hlo Hhi].
    apply Z.gtb_lt in Hlo. apply Z.ltb_lt in Hhi.
    cbn [spike t_spike]. intros [= <- <-].
    assert (Hneg : (idx - n_pad <? 0) = false) by (apply Z.ltb_ge; lia).
    rewrite Hneg. cbn [andb].
    unfold Np.slice, Np.arange, Np.clip_index. cbn [from_option].
    rewrite length_take, length_drop, length_map, length_seq.
    rewrite Hneg.
    destruct (idx + n_pad <? 0) eqn:Hb; [apply Z.ltb_lt in Hb; lia|].
    lia.
  - destruct (idx - n_pad <? 0) eqn:H2.
    + apply Z.ltb_lt in H2. cbn [spike t_spike andb]. intros [= <- <-].
      unfold Np.slice, Np.pad, Np.arange, Np.clip_index. cbn [from_option].
      rewrite !length_app, !length_replicate, length_take, length_drop, length_map, length_seq.
      destruct (idx + n_pad <? 0) eqn:Hb; [apply Z.ltb_lt in Hb; lia|].
      destruct (idx + n_pad >? Z.of_nat (length trace)) eqn:H3.
      * apply Z.gtb_lt in H3. lia.
      * rewrite Z.gtb_ltb in H3. apply Z.ltb_ge in H3. lia.
    + destruct (idx + n_pad >? Z.of_nat (length trace)) eqn:H3; [|discriminate].
      apply Z.ltb_ge in H2. apply Z.gtb_lt in H3.
      cbn [spike t_spike andb]. intros [= <- <-].
      unfold Np.slice, Np.pad, Np.arange, Np.clip_index. cbn [from_option].
      rewrite !length_app, !length_replicate, length_take, length_drop, length_map, length_seq.
      destruct (idx - n_pad <? 0) eqn:Ha; [apply Z.ltb_lt in Ha; lia|].
      lia.
Qed.

(** *** Resampled windows *)

Lemma linspace_bounds (start stop : Q) (num k : nat) (x : Q) :
  (start <= stop)%Q ->
  Np.linspace start stop num !! k = Some x ->
  (start <= x <= stop)%Q.
Proof.
  intros Hle. unfold Np.linspace.
  destruct num as [|[|num]].
  - discriminate.
  - destruct k; [|discriminate]. intros [= <-]. lra.
  - rewrite list_lookup_fmap. intros Hk.
    destruct (seq 0 (S (S num)) !! k) as [j|] eqn:Hj; [|discriminate].
    cbn in Hk. injection Hk as <-.
    apply lookup_seq in Hj as [-> Hlt]. simpl Nat.add.
    set (c := inject_Z (Z.of_nat (S (S num)) - 1)).
    set (kq := inject_Z (Z.of_nat k)).
    assert (Hc : (0 < c)%Q).
    { unfold c. change 0%Q with (inject_Z 0). rewrite <- Zlt_Qlt. lia. }
    assert (Hk0 : (0 <= kq)%Q).
    { unfold kq. change 0%Q with (inject_Z 0). rewrite <- Zle_Qle. lia. }
    assert (Hkc : (kq <= c)%Q).
    { unfold kq, c. rewrite <- Zle_Qle. lia. }
    assert (Hstep : (kq * ((stop - start) / c) == (stop - start) * (kq / c))%Q)
      by (field; lra).
    rewrite Hstep.
    assert (Hfrac : (0 <= kq / c <= 1)%Q).
    { split.
      - apply Qle_shift_div_l; [exact Hc|]. lra.
      - apply Qle_shift_div_r; [exact Hc|]. lra. }
    nra.
Qed.

Lemma int_bounds (lo hi : Z) (x : Q) :
  0 <= lo ->
  (inject_Z lo <= x <= inject_Z hi)%Q ->
  lo <= Np.int x <= hi.
Proof.
  intros Hlo [Hl Hh]. destruct x as [p q]. unfold Np.int, Qle in *. cbn in *.
  rewrite Z.mul_1_r in Hl, Hh.
  assert (Hp : 0 <= p) by nia.
  rewrite Z.quot_div_nonneg by lia. split.
  - apply Z.div_le_lower_bound; lia.
  - apply Z.div_le_upper_bound; lia.
Qed.

(** At an anchor farther than [n_pad] from both ends of the trace, the
    time recorded is within the window, whatever the resampler returns. *)
Lemma record_spike_interior_time trace sign n_pad up idx st st' :
  1 <= n_pad ->
  n_pad < idx -> idx + n_pad < Z.of_nat (length trace) ->
  record_spike resample dt trace sign n_pad up true idx st = Ok st' ->
  exists t, sp_times st' = sp_times st ++ [t] /\ idx - n_pad <= t < idx + n_pad.
Proof.
  intros Hpad Hlo Hhi.
  destruct (up >? 1) eqn:Hup.
  - unfold record_spike, assign_window.
    assert (H1 : (idx - n_pad >? 0) && (idx + n_pad <? Z.of_nat (length trace)) = true).
    { apply andb_true_iff. split; [apply Z.gtb_lt|apply Z.ltb_lt]; lia. }
    rewrite H1. cbn [spike t_spike sp_times sp_amplitudes of_option res_bind].
    unfold upsampled. rewrite Hup.
    destruct (resample _ _) as [su|]; [|discriminate]. cbn [res_bind].
    assert (Hhead : head (Np.arange (idx - n_pad) (idx + n_pad)) = Some (idx - n_pad)).
    { rewrite head_lookup, arange_lookup by lia. f_equal. lia. }
    assert (Hlast : last (Np.arange (idx - n_pad) (idx + n_pad)) = Some (idx + n_pad - 1)).
    { rewrite last_lookup. unfold Np.arange at 1. rewrite length_map, length_seq.
      rewrite arange_lookup by lia. f_equal. lia. }
    rewrite Hhead, Hlast. cbn [of_option res_bind].
    destruct (find_peak (upsampled_dtype dt up) sign su) as [[pi pv]|]; [|discriminate]. cbn [res_bind].
    destruct (Np.linspace _ _ _ !! pi) as [mt|] eqn:Hmt; [|discriminate].
    cbn [of_option res_bind]. intros [= <-]. cbn [sp_times].
    eexists. split; [reflexivity|].
    apply linspace_bounds in Hmt; [|rewrite <- Zle_Qle; lia].
    apply int_bounds in Hmt; lia.
  - rewrite Z.gtb_ltb in Hup. apply Z.ltb_ge in Hup.
    destruct (record_spike_interior trace sign n_pad up idx st Hup Hpad Hlo Hhi)
      as (t & a & w & ts & Hrec & Hext).
    rewrite Hrec. intros [= <-]. cbn [sp_times]. exists t. split; [reflexivity|].
    destruct Hext as [Hrange _]. exact Hrange.
Qed.

(** X16: with align = True, n_pad >= 1 and every crossing farther than
    n_pad from both ends of the trace, every time that the worker returns
    is within n_pad samples of a crossing, with or without resampling and
    whatever the resampled window is. *)
Theorem aligned_times_stay_in_their_window rec_arg ch n_std sign n_pad up md s e verbose
    trace times amplitudes labels :
  get_traces (recording_of load_extractor_from_dict rec_arg) ch s e
  = Ok (NdArray dt trace) ->
  let crossings := threshold_crossings dt trace n_std sign in
  1 <= n_pad ->
  (forall idx, idx ∈ crossings -> n_pad < idx /\ idx + n_pad < Z.of_nat (length trace)) ->
  snd (_detect_and_align_peaks_single_channel resample load_extractor_from_dict
         rec_arg ch n_std sign n_pad up md true s e verbose)
  = Ok (times, amplitudes, labels) ->
  Forall (fun t => exists idx, idx ∈ crossings /\ idx - n_pad <= t < idx + n_pad) times.
Proof.
  intros Hread crossings Hpad Hinterior.
  rewrite (worker_on_trace _ _ _ _ _ _ _ _ _ _ _ _ Hread).
  unfold detect_on_trace. fold crossings.
  destruct (spike_loop _ _ _ _ _ _ _ _ _ _ _ _ _) as [st|] eqn:Hloop; [|discriminate].
  cbn [res_bind]. intros [= <- _ _]. revert Hloop.
  apply (spike_loop_invariant
           (fun st => Forall (fun t => exists idx,
                                idx ∈ crossings /\ idx - n_pad <= t < idx + n_pad)
                        (sp_times st))); [|constructor].
  intros idx st0 st1 Hin Hinv Hrec.
  destruct (Hinterior idx Hin) as [Hlo Hhi].
  destruct (record_spike_interior_time _ _ _ _ _ _ _ Hpad Hlo Hhi Hrec) as (t & -> & Ht).
  apply Forall_app. split; [exact Hinv|]. constructor; [|constructor].
  exists idx. split; assumption.
Qed.

End OnTrace.

(** A worker that returns has read a trace and returns what
    [detect_on_trace] returns on it. *)
Lemma worker_returns_inv rec_arg ch n_std sign n_pad up md align s e verbose o :
  snd (worker rec_arg ch n_std sign n_pad up md align s e verbose) = Ok o ->
  exists dt trace,
    get_traces (recording_of load_extractor_from_dict rec_arg) ch s e
    = Ok (NdArray dt trace) /\
    detect_on_trace resample dt trace ch n_std sign n_pad up md align = Ok o.
Proof.
  rewrite worker_outcome.
  destruct (get_traces _ _ _ _) as [[dt trace]|]; [|discriminate].
  cbn [res_bind dtype_of samples_of]. intros Hrun.
  exists dt, trace. split; [reflexivity|exact Hrun].
Qed.

(** *** The orchestrator *)

Lemma io_bind_inv {A B} (m : io A) (k : A -> io B) log (b : B) :
  io_bind m k = (log, Ok b) ->
  exists log1 a log2, m = (log1, Ok a) /\ k a = (log2, Ok b) /\ log = log1 ++ log2.
Proof.
  destruct m as [log1 [a|e]]; simpl; [|discriminate].
  destruct (k a) as [log2 r] eqn:Hk. intros [= <- ->].
  exists log1, a, log2. repeat split; assumption.
Qed.

Lemma io_map_inv {A B} (f : A -> io B) (xs : list A) log (ys : list B) :
  io_map f xs = (log, Ok ys) ->
  Forall2 (fun x y => snd (f x) = Ok y) xs ys /\
  log = concat (map (fun x => fst (f x)) xs).
Proof.
  revert log ys. induction xs as [|x xs IH]; intros log ys; cbn [io_map].
  - intros [= <- <-]. split; [constructor|reflexivity].
  - intros Hbind. apply io_bind_inv in Hbind as (log1 & y & log2 & Hf & Hrest & ->).
    apply io_bind_inv in Hrest as (log3 & ys' & log4 & Hmap & Hret & ->).
    injection Hret as <- <-. destruct (IH _ _ Hmap) as [Hall ->].
    split.
    + constructor; [rewrite Hf; reflexivity|exact Hall].
    + cbn [map concat]. rewrite Hf, app_nil_r. reflexivity.
Qed.

(** What a run of [detect_spikes] that returns a sorting went through. *)
Lemma detect_spikes_inv recording channel_ids detect_threshold n_pad_ms upsample
    detect_sign min_diff_samples align start_frame end_frame n_jobs verbose log sorting :
  detect recording channel_ids detect_threshold n_pad_ms upsample detect_sign
    min_diff_samples align start_frame end_frame n_jobs verbose
  = (log, Ok sorting) ->
  let n_pad := Np.int (n_pad_ms * get_sampling_frequency recording / 1000)%Q in
  let first := default 0 start_frame in
  let last := default (get_num_frames recording) end_frame in
  exists chs rec_arg output warning,
    chs = default (get_channel_ids recording) channel_ids /\
    get_traces (recording_of load_extractor_from_dict rec_arg)
    = get_traces
        (if check_if_dumpable recording && (n_jobs >? 1)
         then load_extractor_from_dict (make_serialized_dict recording)
         else recording) /\
    Forall2 (fun ch o =>
               snd (worker rec_arg ch detect_threshold detect_sign n_pad upsample
                      min_diff_samples align first last verbose) = Ok o)
      chs output /\
    warning = (if negb (check_if_dumpable recording) && (n_jobs >? 1)
               then [Print not_dumpable] else []) /\
    log = warning
            ++ concat (map (fun ch =>
                              fst (worker rec_arg ch detect_threshold detect_sign n_pad
                                     upsample min_diff_samples align first last verbose))
                         chs) /\
    Qeq_bool (get_sampling_frequency recording) 0 = false /\
    set_properties_from (map (fun o => snd (fst o)) output)
      (inject_Z (last - first) / get_sampling_frequency recording)%Q 0
      (unit_ids_of_labels (concat (map snd output)))
      (set_times_labels unit_ids_of_labels
         (concat (map (fun o => fst (fst o)) output)) (concat (map snd output)))
    = Ok sorting.
Proof.
  intros Hrun n_pad first last. unfold detect_spikes in Hrun. cbv zeta in Hrun.
  apply io_bind_inv in Hrun as (log1 & chs & log2 & Hvalid & Hrun & ->).
  assert (Hchs : chs = default (get_channel_ids recording) channel_ids /\ log1 = []).
  { destruct channel_ids as [chs'|]; cbn [default].
    - destruct (forallb _ chs'); inversion Hvalid; split; reflexivity.
    - inversion Hvalid; split; reflexivity. }
  destruct Hchs as [Hchs ->]. clear Hvalid.
  apply io_bind_inv in Hrun as (log3 & [jobs rec_arg] & log4 & Hdump & Hrun & ->).
  apply io_bind_inv in Hrun as (log5 & output & log6 & Hmap & Hfinal & ->).
  destruct (Qeq_bool (get_sampling_frequency recording) 0) eqn:Hfs; [discriminate Hfinal|].
  unfold io_lift in Hfinal. injection Hfinal as <- Hprops.
  cbn [get_unit_ids set_times_labels] in Hprops.
  destruct (check_if_dumpable recording) eqn:Hd; cbn [negb andb] in *.
  - unfold io_ret in Hdump. injection Hdump as <- <- <-.
    destruct (n_jobs >? 1) eqn:Hj.
    + apply io_map_inv in Hmap as [Hall ->].
      exists chs, (RecDict (make_serialized_dict recording)), output, [].
      rewrite app_nil_r. repeat split; try assumption; reflexivity.
    + apply io_map_inv in Hmap as [Hall ->].
      exists chs, (RecObject recording), output, [].
      rewrite app_nil_r. repeat split; try assumption; reflexivity.
  - destruct (n_jobs >? 1) eqn:Hj.
    + rewrite io_bind_emit in Hdump. cbn [fst snd io_ret] in Hdump.
      injection Hdump as <- <- <-. change (0 >? 1) with false in Hmap. cbv iota in Hmap.
      apply io_map_inv in Hmap as [Hall ->].
      exists chs, (RecObject recording), output, [Print not_dumpable].
      rewrite app_nil_r. repeat split; try assumption; reflexivity.
    + unfold io_ret in Hdump. injection Hdump as <- <- <-. rewrite Hj in Hmap.
      apply io_map_inv in Hmap as [Hall ->].
      exists chs, (RecObject recording), output, [].
      rewrite app_nil_r. repeat split; try assumption; reflexivity.
Qed.

Lemma get_set_unit_property sorting u name v u' name' :
  get_unit_property (set_unit_property sorting u name v) u' name'
  = if decide (u = u' /\ name = name') then Some v
    else get_unit_property sorting u' name'.
Proof.
  unfold get_unit_property, set_unit_property. cbn [unit_properties].
  destruct (decide (u = u')) as [->|Hu].
  - rewrite lookup_insert_eq. cbn.
    destruct (decide (name = name')) as [->|Hn].
    + rewrite lookup_insert_eq. rewrite decide_True by tauto. reflexivity.
    + rewrite lookup_insert_ne by exact Hn. rewrite decide_False by tauto.
      destruct (unit_properties sorting !! u'); cbn; [reflexivity|apply lookup_empty].
  - rewrite lookup_insert_ne by exact Hu. rewrite decide_False by tauto. reflexivity.
Qed.

(** What lines 99-101 leave on the unit they treat, and on the others. *)
Lemma set_properties_of_unit_spec spike_amplitudes duration sorting i_u u sorting' :
  set_properties_of_unit spike_amplitudes duration sorting i_u u = Ok sorting' ->
  get_unit_ids sorting' = get_unit_ids sorting /\
  unit_spike_trains sorting' = unit_spike_trains sorting /\
  get_unit_property sorting' u "channel" = Some (PInt u) /\
  get_unit_property sorting' u "spike_amplitude"
  = Some (PFloat (Np.median (default [] (spike_amplitudes !! i_u)))) /\
  get_unit_property sorting' u "spike_rate"
  = Some (PFloat (Some (inject_Z (Z.of_nat (length (get_unit_spike_train sorting u)))
                        / duration)%Q)) /\
  forall u' name, u' <> u ->
    get_unit_property sorting' u' name = get_unit_property sorting u' name.
Proof.
  unfold set_properties_of_unit.
  destruct (spike_amplitudes !! i_u) as [amplitudes|]; [|discriminate].
  cbn [of_option res_bind default].
  destruct (Qeq_bool duration 0); [discriminate|]. intros [= <-].
  repeat split.
  - rewrite !get_set_unit_property.
    rewrite decide_False by (intros [_ H]; discriminate H).
    rewrite decide_False by (intros [_ H]; discriminate H).
    rewrite decide_True by tauto. reflexivity.
  - rewrite !get_set_unit_property.
    rewrite decide_False by (intros [_ H]; discriminate H).
    rewrite decide_True by tauto. reflexivity.
  - rewrite !get_set_unit_property. rewrite decide_True by tauto. reflexivity.
  - intros u' name Hne. rewrite !get_set_unit_property.
    rewrite !decide_False by (intros [H _]; congruence). reflexivity.
Qed.

Lemma set_properties_from_spec spike_amplitudes duration units :
  forall i_u sorting sorting',
    set_properties_from spike_amplitudes duration i_u units sorting = Ok sorting' ->
    get_unit_ids sorting' = get_unit_ids sorting /\
    unit_spike_trains sorting' = unit_spike_trains sorting /\
    (forall u, u ∈ units ->
       get_unit_property sorting' u "channel" = Some (PInt u) /\
       get_unit_property sorting' u "spike_rate"
       = Some (PFloat (Some (inject_Z (Z.of_nat (length (get_unit_spike_train sorting u)))
                             / duration)%Q))) /\
    (forall u name, u ∉ units ->
       get_unit_property sorting' u name = get_unit_property sorting u name).
Proof.
  induction units as [|u units IH]; intros i_u sorting sorting'; cbn [set_properties_from].
  - intros [= <-]. split; [reflexivity|]. split; [reflexivity|].
    split; [intros v Hin; inversion Hin|]. intros v name _. reflexivity.
  - destruct (set_properties_of_unit spike_amplitudes duration sorting i_u u)
      as [s1|] eqn:Hstep; [|discriminate].
    cbn [res_bind]. intros Hrest.
    apply set_properties_of_unit_spec in Hstep
      as (Hids1 & Htrains1 & Hch1 & _ & Hrate1 & Hother1).
    apply IH in Hrest as (Hids & Htrains & Hunits & Hother).
    assert (Htrain : forall v, get_unit_spike_train s1 v = get_unit_spike_train sorting v).
    { intros v. unfold get_unit_spike_train. rewrite Htrains1. reflexivity. }
    split; [congruence|]. split; [congruence|]. split.
    + intros v Hin. destruct (decide (v ∈ units)) as [Hv|Hv].
      * destruct (Hunits v Hv) as [Hc Hr]. rewrite Htrain in Hr. split; assumption.
      * apply elem_of_cons in Hin as [->|Hin]; [|contradiction].
        rewrite !Hother by exact Hv. split; assumption.
    + intros v name Hv. apply not_elem_of_cons in Hv as [Hne Hv].
      rewrite Hother by exact Hv. apply Hother1. exact Hne.
Qed.

(** X9: in the sorting that [detect_spikes] returns, every unit carries
    its own id as 'channel' and, as 'spike_rate', the length of its own
    spike train divided by the duration (end_frame - start_frame) /
    sampling frequency, with the defaults 0 and get_num_frames for the
    frames. *)
Theorem units_carry_channel_and_rate recording channel_ids detect_threshold n_pad_ms
    upsample detect_sign min_diff_samples align start_frame end_frame n_jobs verbose
    sorting u :
  snd (detect_spikes resample make_serialized_dict load_extractor_from_dict
         unit_ids_of_labels recording channel_ids detect_threshold n_pad_ms upsample
         detect_sign min_diff_samples align start_frame end_frame n_jobs verbose)
  = Ok sorting ->
  u ∈ get_unit_ids sorting ->
  let duration :=
    (inject_Z (default (get_num_frames recording) end_frame - default 0 start_frame)%Z
     / get_sampling_frequency recording)%Q in
  get_unit_property sorting u "channel" = Some (PInt u) /\
  get_unit_property sorting u "spike_rate"
  = Some (PFloat (Some (inject_Z (Z.of_nat (length (get_unit_spike_train sorting u)))
                        / duration)%Q)).
Proof.
  intros Hrun Hu duration.
  destruct (detect_spikes _ _ _ _ _ _ _ _ _ _ _ _ _ _ _ _) as [log r] eqn:Hdetect.
  cbn [snd] in Hrun. subst r.
  apply detect_spikes_inv in Hdetect
    as (chs & rec_arg & output & warning & _ & _ & _ & _ & _ & _ & Hprops).
  apply set_properties_from_spec in Hprops as (Hids & Htrains & Hunits & _).
  rewrite Hids in Hu. cbn [get_unit_ids set_times_labels] in Hu.
  destruct (Hunits u Hu) as [Hc Hr]. split; [exact Hc|].
  rewrite Hr. unfold get_unit_spike_train. rewrite Htrains. reflexivity.
Qed.

(** When no unit is listed twice, the unit at position [k] gets the median
    of the amplitudes at position [i_u + k]. *)
Lemma set_properties_from_amplitude spike_amplitudes duration units :
  NoDup units ->
  forall i_u sorting sorting' k u,
    set_properties_from spike_amplitudes duration i_u units sorting = Ok sorting' ->
    units !! k = Some u ->
    exists amplitudes,
      spike_amplitudes !! (i_u + k)%nat = Some amplitudes /\
      get_unit_property sorting' u "spike_amplitude"
      = Some (PFloat (Np.median amplitudes)).
Proof.
  intros Hnodup. induction units as [|v units IH]; intros i_u sorting sorting' k u;
    cbn [set_properties_from]; [intros _ Hk; discriminate Hk|].
  apply NoDup_cons in Hnodup as [Hv Hnodup].
  destruct (set_properties_of_unit spike_amplitudes duration sorting i_u v)
    as [s1|] eqn:Hstep; [|discriminate].
  cbn [res_bind]. intros Hrest Hk. destruct k as [|k].
  - injection Hk as <-. rewrite Nat.add_0_r.
    assert (Hsome : is_Some (spike_amplitudes !! i_u)).
    { unfold set_properties_of_unit in Hstep.
      destruct (spike_amplitudes !! i_u); [eauto|discriminate]. }
    destruct Hsome as [amplitudes Hamp]. exists amplitudes. split; [exact Hamp|].
    apply set_properties_of_unit_spec in Hstep as (_ & _ & _ & Hmed & _ & _).
    apply set_properties_from_spec in Hrest as (_ & _ & _ & Hother).
    rewrite Hother by exact Hv. rewrite Hmed, Hamp. reflexivity.
  - replace (i_u + S k)%nat with (S i_u + k)%nat by lia.
    eapply (IH Hnodup); [exact Hrest|exact Hk].
Qed.

(** X10: the 'spike_amplitude' of a unit is paired with a channel by
    position: when the units of the returned sorting are distinct, the
    unit at position k carries the median of the amplitudes that the
    worker returned for the channel at position k of the requested
    channels, whichever channel the unit stands for. *)
Theorem amplitude_is_paired_by_position recording channel_ids detect_threshold n_pad_ms
    upsample detect_sign min_diff_samples align start_frame end_frame n_jobs verbose
    sorting k u :
  snd (detect_spikes resample make_serialized_dict load_extractor_from_dict
         unit_ids_of_labels recording channel_ids detect_threshold n_pad_ms upsample
         detect_sign min_diff_samples align start_frame end_frame n_jobs verbose)
  = Ok sorting ->
  NoDup (get_unit_ids sorting) ->
  get_unit_ids sorting !! k = Some u ->
  let source :=
    if check_if_dumpable recording && (n_jobs >? 1)
    then load_extractor_from_dict (make_serialized_dict recording)
    else recording in
  exists ch dt trace times amplitudes labels,
    default (get_channel_ids recording) channel_ids !! k = Some ch /\
    get_traces source ch (default 0 start_frame)
      (default (get_num_frames recording) end_frame)
    = Ok (NdArray dt trace) /\
    detect_on_trace resample dt trace ch detect_threshold detect_sign
      (Np.int (n_pad_ms * get_sampling_frequency recording / 1000)%Q)
      upsample min_diff_samples align
    = Ok (times, amplitudes, labels) /\
    get_unit_property sorting u "spike_amplitude" = Some (PFloat (Np.median amplitudes)).
Proof.
  intros Hrun Hnodup Hk source.
  destruct (detect_spikes _ _ _ _ _ _ _ _ _ _ _ _ _ _ _ _) as [log r] eqn:Hdetect.
  cbn [snd] in Hrun. subst r.
  apply detect_spikes_inv in Hdetect
    as (chs & rec_arg & output & warning & Hchs & Htraces & Hall & _ & _ & _ & Hprops).
  pose proof (set_properties_from_spec _ _ _ _ _ _ Hprops) as (Hids & _ & _ & _).
  cbn [get_unit_ids set_times_labels] in Hids. rewrite Hids in Hnodup, Hk.
  destruct (set_properties_from_amplitude _ _ _ Hnodup _ _ _ _ _ Hprops Hk)
    as (amplitudes & Hamp & Hmed).
  simpl Nat.add in Hamp. rewrite list_lookup_fmap in Hamp.
  destruct (output !! k) as [[[times amps] labels]|] eqn:Hout; [|discriminate].
  cbn in Hamp. injection Hamp as <-.
  destruct (Forall2_lookup_r _ _ _ _ _ Hall Hout) as (ch & Hch & Hworker).
  apply worker_returns_inv in Hworker as (dt & trace & Hread & Hworker).
  rewrite Htraces in Hread.
  exists ch, dt, trace, times, amps, labels. rewrite <- Hchs. repeat split; assumption.
Qed.

Lemma times_of_label_block (times : list Z) (ch u : Z) :
  times_of_label times (replicate (length times) ch) u
  = if decide (ch = u) then times else [].
Proof.
  unfold times_of_label. induction times as [|t times IH]; simpl.
  - destruct (decide (ch = u)); reflexivity.
  - rewrite filter_cons. cbn [snd]. destruct (decide (ch = u)) as [Heq|Hne].
    + cbn. f_equal. exact IH.
    + exact IH.
Qed.

Lemma times_of_label_app (t1 t2 l1 l2 : list Z) (u : Z) :
  length t1 = length l1 ->
  times_of_label (t1 ++ t2) (l1 ++ l2) u
  = times_of_label t1 l1 u ++ times_of_label t2 l2 u.
Proof.
  intros Hlen. unfold times_of_label.
  rewrite zip_with_app by exact Hlen. rewrite filter_app, map_app. reflexivity.
Qed.

(** The times labelled [u] among the flattened outputs of the workers are
    the times of the workers of channel [u]. *)
Lemma times_of_label_outputs (chs : list Z) (output : list (list Z * list Q * list Z)) (u : Z) :
  Forall2 (fun ch o => snd o = replicate (length (fst (fst o))) ch) chs output ->
  times_of_label (concat (map (fun o => fst (fst o)) output)) (concat (map snd output)) u
  = concat (map (fun co => if decide (fst co = u) then fst (fst (snd co)) else [])
              (zip chs output)).
Proof.
  induction 1 as [|ch [[times amps] labels] chs output Hlab Hall IH]; [reflexivity|].
  cbn [map concat fst snd zip zip_with] in *. subst labels.
  rewrite times_of_label_app by (rewrite length_replicate; reflexivity).
  rewrite times_of_label_block. f_equal. exact IH.
Qed.

Lemma concat_single_channel (chs : list Z) (output : list (list Z * list Q * list Z))
    (k : nat) (u : Z) o :
  NoDup chs ->
  chs !! k = Some u ->
  output !! k = Some o ->
  concat (map (fun co => if decide (fst co = u) then fst (fst (snd co)) else [])
            (zip chs output))
  = fst (fst o).
Proof.
  intros Hnodup. revert k output.
  induction chs as [|ch chs IH]; intros k output Hk Ho; [discriminate|].
  destruct output as [|o' output]; [discriminate|].
  apply NoDup_cons in Hnodup as [Hch Hnodup].
  cbn [zip zip_with map concat fst snd]. destruct k as [|k].
  - injection Hk as ->. injection Ho as ->. rewrite decide_True by reflexivity.
    assert (Hrest : concat (map (fun co => if decide (fst co = u)
                                           then fst (fst (snd co)) else [])
                              (zip chs output)) = []).
    { clear IH Hnodup. revert output. induction chs as [|c chs IHc]; intros output;
        [reflexivity|].
      destruct output as [|o1 output]; [reflexivity|].
      apply not_elem_of_cons in Hch as [Hne Hch].
      cbn [zip zip_with map concat fst snd].
      rewrite decide_False by congruence. apply IHc. exact Hch. }
    rewrite Hrest, app_nil_r. reflexivity.
  - rewrite decide_False.
    + apply (IH Hnodup k); assumption.
    + intros ->. apply Hch. eapply list_elem_of_lookup_2. exact Hk.
Qed.

Lemma lookup_unit_spike_trains (units : list Z) (train : Z -> list Z) (u : Z) :
  u ∈ units ->
  (list_to_map (map (fun v => (v, train v)) units) : gmap Z (list Z)) !! u
  = Some (train u).
Proof.
  induction units as [|v units IH]; intros Hin; [inversion Hin|].
  cbn [map list_to_map foldr]. destruct (decide (v = u)) as [->|Hne].
  - apply lookup_insert_eq.
  - rewrite lookup_insert_ne by exact Hne. apply IH.
    apply elem_of_cons in Hin as [Heq|Hin]; [congruence|exact Hin].
Qed.

Lemma detect_on_trace_labels dt trace ch n_std sign n_pad up md align times amplitudes
    labels :
  detect_on_trace resample dt trace ch n_std sign n_pad up md align
  = Ok (times, amplitudes, labels) ->
  labels = replicate (length times) ch.
Proof.
  unfold detect_on_trace.
  destruct (spike_loop _ _ _ _ _ _ _ _ _ _ _ _ _) as [st|]; [|discriminate].
  cbn [res_bind]. intros [= <- _ <-]. reflexivity.
Qed.

(** X11: when the requested channels are distinct, the spike train of a
    unit of the returned sorting is the list of times that the worker
    returned for the channel of the same id: the events of the channels
    are neither mixed nor reordered by the aggregation. *)
Theorem unit_train_is_the_channel_output recording channel_ids detect_threshold n_pad_ms
    upsample detect_sign min_diff_samples align start_frame end_frame n_jobs verbose
    sorting u :
  snd (detect_spikes resample make_serialized_dict load_extractor_from_dict
         unit_ids_of_labels recording channel_ids detect_threshold n_pad_ms upsample
         detect_sign min_diff_samples align start_frame end_frame n_jobs verbose)
  = Ok sorting ->
  NoDup (default (get_channel_ids recording) channel_ids) ->
  u ∈ default (get_channel_ids recording) channel_ids ->
  u ∈ get_unit_ids sorting ->
  let source :=
    if check_if_dumpable recording && (n_jobs >? 1)
    then load_extractor_from_dict (make_serialized_dict recording)
    else recording in
  exists dt trace times amplitudes labels,
    get_traces source u (default 0 start_frame)
      (default (get_num_frames recording) end_frame)
    = Ok (NdArray dt trace) /\
    detect_on_trace resample dt trace u detect_threshold detect_sign
      (Np.int (n_pad_ms * get_sampling_frequency recording / 1000)%Q)
      upsample min_diff_samples align
    = Ok (times, amplitudes, labels) /\
    get_unit_spike_train sorting u = times.
Proof.
  intros Hrun Hnodup Hch Hu source.
  destruct (detect_spikes _ _ _ _ _ _ _ _ _ _ _ _ _ _ _ _) as [log r] eqn:Hdetect.
  cbn [snd] in Hrun. subst r.
  apply detect_spikes_inv in Hdetect
    as (chs & rec_arg & output & warning & Hchs & Htraces & Hall & _ & _ & _ & Hprops).
  rewrite <- Hchs in Hnodup, Hch.
  apply set_properties_from_spec in Hprops as (Hids & Htrains & _ & _).
  cbn [get_unit_ids unit_spike_trains set_times_labels] in Hids, Htrains.
  rewrite Hids in Hu.
  apply list_elem_of_lookup in Hch as [k Hk].
  destruct (Forall2_lookup_l _ _ _ _ _ Hall Hk) as ([[times amps] labels] & Hout & Hworker).
  apply worker_returns_inv in Hworker as (dt & trace & Hread & Hworker).
  rewrite Htraces in Hread.
  exists dt, trace, times, amps, labels. split; [exact Hread|]. split; [exact Hworker|].
  unfold get_unit_spike_train. rewrite Htrains.
  rewrite lookup_unit_spike_trains by exact Hu. cbn [default].
  rewrite (times_of_label_outputs chs).
  - rewrite (concat_single_channel chs output k u _ Hnodup Hk Hout). reflexivity.
  - eapply Forall2_impl; [exact Hall|].
    intros ch [[t a] l] Hw. cbn [fst snd].
    apply worker_returns_inv in Hw as (dt0 & trace0 & _ & Hw).
    eapply detect_on_trace_labels. exact Hw.
Qed.

Lemma io_map_ext {A B} (f g : A -> io B) (xs : list A) :
  (forall x, f x = g x) -> io_map f xs = io_map g xs.
Proof.
  intros Hext. induction xs as [|x xs IH]; [reflexivity|].
  cbn [io_map]. rewrite Hext, IH. reflexivity.
Qed.

(** The worker depends on its recording argument only through the trace
    it reads from it. *)
Lemma worker_ext rec_arg1 rec_arg2 ch n_std sign n_pad up md align s e verbose :
  get_traces (recording_of load_extractor_from_dict rec_arg1) ch s e
  = get_traces (recording_of load_extractor_from_dict rec_arg2) ch s e ->
  worker rec_arg1 ch n_std sign n_pad up md align s e verbose
  = worker rec_arg2 ch n_std sign n_pad up md align s e verbose.
Proof.
  intros Htrace. unfold _detect_and_align_peaks_single_channel. rewrite Htrace. reflexivity.
Qed.

(** In the embedding, where the workers of the parallel branch run in the
    order of the channels, the outcome does not depend on n_jobs when the
    recording loaded from the serialized dict returns the traces of the
    recording itself. *)
Lemma n_jobs_outcome recording channel_ids detect_threshold n_pad_ms
    upsample detect_sign min_diff_samples align start_frame end_frame n_jobs verbose :
  (forall ch s e,
     get_traces (load_extractor_from_dict (make_serialized_dict recording)) ch s e
     = get_traces recording ch s e) ->
  snd (detect_spikes resample make_serialized_dict load_extractor_from_dict
         unit_ids_of_labels recording channel_ids detect_threshold n_pad_ms upsample
         detect_sign min_diff_samples align start_frame end_frame n_jobs verbose)
  = snd (detect_spikes resample make_serialized_dict load_extractor_from_dict
           unit_ids_of_labels recording channel_ids detect_threshold n_pad_ms upsample
           detect_sign min_diff_samples align start_frame end_frame 1 verbose).
Proof.
  intros Hround. unfold detect_spikes.
  set (validated := match channel_ids with
                    | Some chs => _
                    | None => _
                    end).
  destruct validated as [log [chs|err]]; [|reflexivity].
  rewrite !io_bind_ok. cbn [snd].
  change (1 >? 1) with false. cbn [andb].
  destruct (check_if_dumpable recording); cbn [negb]; cbv iota.
  - rewrite !io_bind_ret. cbv beta iota. change (1 >? 1) with false. cbv iota.
    destruct (n_jobs >? 1); [|reflexivity].
    erewrite io_map_ext; [reflexivity|].
    intros ch. apply worker_ext. cbn [recording_of]. apply Hround.
  - destruct (n_jobs >? 1).
    + rewrite io_bind_assoc, io_bind_emit, !io_bind_ret. cbv beta iota.
      change (0 >? 1) with false. change (1 >? 1) with false. cbv iota. reflexivity.
    + rewrite !io_bind_ret. cbv beta iota. change (1 >? 1) with false.
      destruct (n_jobs >? 1); reflexivity.
Qed.

(** X12: when the recording loaded from the serialized dict returns the
    traces of the recording itself, a sorting returned with n_jobs = 1 is
    returned with any other n_jobs: the workers run through joblib on the
    dict give what the sequential loop gives. *)
Theorem sorting_does_not_depend_on_n_jobs recording channel_ids detect_threshold n_pad_ms
    upsample detect_sign min_diff_samples align start_frame end_frame n_jobs verbose
    sorting :
  (forall ch s e,
     get_traces (load_extractor_from_dict (make_serialized_dict recording)) ch s e
     = get_traces recording ch s e) ->
  snd (detect_spikes resample make_serialized_dict load_extractor_from_dict
         unit_ids_of_labels recording channel_ids detect_threshold n_pad_ms upsample
         detect_sign min_diff_samples align start_frame end_frame 1 verbose)
  = Ok sorting ->
  snd (detect_spikes resample make_serialized_dict load_extractor_from_dict
         unit_ids_of_labels recording channel_ids detect_threshold n_pad_ms upsample
         detect_sign min_diff_samples align start_frame end_frame n_jobs verbose)
  = Ok sorting.
Proof.
  intros Hround Hrun. rewrite n_jobs_outcome by exact Hround. exact Hrun.
Qed.

(** X13: a sequential run of [detect_spikes] (the recording is not
    dumpable, or n_jobs <= 1) that returns a sorting has read the trace of
    each requested channel exactly once, in the order of the channels,
    over the frames from start_frame (default 0) to end_frame (default
    get_num_frames); besides these reads it has only printed the warning
    of line 63, when the recording is not dumpable and n_jobs > 1, and one
    line per channel when verbose. *)
Theorem log_of_a_successful_run recording channel_ids detect_threshold n_pad_ms
    upsample detect_sign min_diff_samples align start_frame end_frame n_jobs verbose
    sorting :
  check_if_dumpable recording && (n_jobs >? 1) = false ->
  snd (detect_spikes resample make_serialized_dict load_extractor_from_dict
         unit_ids_of_labels recording channel_ids detect_threshold n_pad_ms upsample
         detect_sign min_diff_samples align start_frame end_frame n_jobs verbose)
  = Ok sorting ->
  fst (detect_spikes resample make_serialized_dict load_extractor_from_dict
         unit_ids_of_labels recording channel_ids detect_threshold n_pad_ms upsample
         detect_sign min_diff_samples align start_frame end_frame n_jobs verbose)
  = (if negb (check_if_dumpable recording) && (n_jobs >? 1)
     then [Print not_dumpable] else [])
    ++ concat
         (map (fun ch =>
                 (if verbose
                  then [Print ("Detecting spikes on channel " +:+ pretty ch)]
                  else [])
                 ++ [GetTraces ch (default 0 start_frame)
                       (default (get_num_frames recording) end_frame)])
            (default (get_channel_ids recording) channel_ids)).
Proof.
  intros _ Hrun.
  destruct (detect_spikes _ _ _ _ _ _ _ _ _ _ _ _ _ _ _ _) as [log r] eqn:Hdetect.
  cbn [fst snd] in *. subst r.
  apply detect_spikes_inv in Hdetect
    as (chs & rec_arg & output & warning & -> & _ & _ & -> & -> & _ & _).
  f_equal. f_equal. apply map_ext. intros ch. apply worker_log.
Qed.

Lemma elem_of_flat_labels (chs : list Z) (output : list (list Z * list Q * list Z)) (u : Z) :
  Forall2 (fun ch o => snd o = replicate (length (fst (fst o))) ch) chs output ->
  u ∈ concat (map snd output) <->
  exists k o, chs !! k = Some u /\ output !! k = Some o /\ fst (fst o) <> [].
Proof.
  induction 1 as [|ch [[times amps] labels] chs output Hlab Hall IH].
  - split; [intros Hin; inversion Hin|intros (k & o & Hk & _); discriminate].
  - cbn [map concat fst snd] in *. subst labels. rewrite elem_of_app, IH. split.
    + intros [Hin|(k & o & Hk & Ho & Hne)].
      * apply elem_of_replicate in Hin as [Heq Hlen]. subst ch.
        exists O, (times, amps, replicate (length times) u). repeat split.
        destruct times; [contradiction|discriminate].
      * exists (S k), o. repeat split; assumption.
    + intros (k & o & Hk & Ho & Hne). destruct k as [|k].
      * left. injection Hk as ->. injection Ho as <-. cbn [fst] in Hne.
        apply elem_of_replicate. split; [reflexivity|].
        destruct times; [contradiction|discriminate].
      * right. exists k, o. repeat split; assumption.
Qed.

(** X14: when the sorting lists as units exactly the labels it is given,
    the units of the returned sorting are exactly the requested channels
    for which the worker returned at least one event: a channel without
    event is not a unit, and every unit id is a channel id. *)
Theorem units_are_the_channels_with_events recording channel_ids detect_threshold n_pad_ms
    upsample detect_sign min_diff_samples align start_frame end_frame n_jobs verbose
    sorting u :
  (forall labels v, v ∈ unit_ids_of_labels labels <-> v ∈ labels) ->
  snd (detect_spikes resample make_serialized_dict load_extractor_from_dict
         unit_ids_of_labels recording channel_ids detect_threshold n_pad_ms upsample
         detect_sign min_diff_samples align start_frame end_frame n_jobs verbose)
  = Ok sorting ->
  let source :=
    if check_if_dumpable recording && (n_jobs >? 1)
    then load_extractor_from_dict (make_serialized_dict recording)
    else recording in
  u ∈ get_unit_ids sorting <->
  u ∈ default (get_channel_ids recording) channel_ids /\
  exists dt trace times amplitudes labels,
    get_traces source u (default 0 start_frame)
      (default (get_num_frames recording) end_frame)
    = Ok (NdArray dt trace) /\
    detect_on_trace resample dt trace u detect_threshold detect_sign
      (Np.int (n_pad_ms * get_sampling_frequency recording / 1000)%Q)
      upsample min_diff_samples align
    = Ok (times, amplitudes, labels) /\
    times <> [].
Proof.
  intros Hunits Hrun source.
  destruct (detect_spikes _ _ _ _ _ _ _ _ _ _ _ _ _ _ _ _) as [log r] eqn:Hdetect.
  cbn [snd] in Hrun. subst r.
  apply detect_spikes_inv in Hdetect
    as (chs & rec_arg & output & warning & Hchs & Htraces & Hall & _ & _ & _ & Hprops).
  rewrite <- Hchs.
  apply set_properties_from_spec in Hprops as (Hids & _ & _ & _).
  cbn [get_unit_ids set_times_labels] in Hids. rewrite Hids, Hunits.
  assert (Hlabels : Forall2 (fun ch o => snd o = replicate (length (fst (fst o))) ch)
                      chs output).
  { eapply Forall2_impl; [exact Hall|].
    intros ch [[t a] l] Hw. cbn [fst snd].
    apply worker_returns_inv in Hw as (dt0 & trace0 & _ & Hw).
    eapply detect_on_trace_labels. exact Hw. }
  rewrite (elem_of_flat_labels chs output u Hlabels). split.
  - intros (k & [[times amps] labels] & Hk & Ho & Hne). cbn [fst] in Hne.
    split; [eapply list_elem_of_lookup_2; exact Hk|].
    pose proof (Forall2_lookup_lr _ _ _ _ _ _ Hall Hk Ho) as Hw. cbn beta in Hw.
    apply worker_returns_inv in Hw as (dt & trace & Hread & Hw).
    rewrite Htraces in Hread.
    exists dt, trace, times, amps, labels. repeat split; assumption.
  - intros (Hin & dt & trace & times & amps & labels & Hread & Hrun & Hne).
    apply list_elem_of_lookup in Hin as [k Hk].
    destruct (Forall2_lookup_l _ _ _ _ _ Hall Hk) as (o & Ho & Hw).
    apply worker_returns_inv in Hw as (dt' & trace' & Hread' & Hw).
    rewrite Htraces in Hread'. fold source in Hread'.
    rewrite Hread in Hread'. injection Hread' as <- <-.
    exists k, o. split; [exact Hk|]. split; [exact Ho|].
    rewrite Hrun in Hw. injection Hw as <-. exact Hne.
Qed.

End Properties.

(** * Closed examples: witnesses and counterexamples *)

(** The traces that the one-channel examples read. *)
Lemma pair_trace_read :
  get_traces (one_channel_recording pair_trace) 0 0 10
  = Ok (NdArray float64 pair_trace).
Proof. reflexivity. Defined.

Lemma close_spikes_trace_read :
  get_traces (one_channel_recording close_spikes_trace) 0 0 20
  = Ok (NdArray float64 close_spikes_trace).
Proof. reflexivity. Defined.

Lemma edge_trace_read :
  get_traces (one_channel_recording edge_trace) 0 0 10
  = Ok (NdArray float64 edge_trace).
Proof. reflexivity. Defined.




(** C9, counterexample: with align = True and windows of half-width 4
    around the anchors 5 and 8, both windows hold the sample -100 of index
    5; the two events have the same time. *)
Lemma aligned_times_can_repeat :
  snd (example_worker (RecObject (one_channel_recording close_spikes_trace))
         0 5 (-1) 4 1 2 true 0 20 false)
  = Ok ([5; 5], [(-100)%Q; (-100)%Q], [0; 0]) /\
  ~ StronglySorted Z.lt [5; 5].
Proof.
  split; [vm_compute; reflexivity|].
  intros Hsorted. apply StronglySorted_inv in Hsorted as [_ Hlt].
  apply Forall_cons in Hlt as [Hlt _]. lia.
Qed.

(** C9, witness of the amended statement: the same trace without
    alignment. *)
Lemma unaligned_times_strictly_increase_witness :
  get_traces (one_channel_recording close_spikes_trace) 0 0 20
  = Ok (NdArray float64 close_spikes_trace) /\
  exists times amplitudes,
    snd (example_worker (RecObject (one_channel_recording close_spikes_trace))
           0 5 (-1) 4 1 2 false 0 20 false)
    = Ok (times, amplitudes, replicate (length times) 0)
    /\ StronglySorted Z.lt times.
Proof.
  split; [exact close_spikes_trace_read|].
  exact (unaligned_times_strictly_increase resample_pair RecordingExtractor
           (fun recording : RecordingExtractor => recording) float64
           (RecObject (one_channel_recording close_spikes_trace))
           0 5 (-1) 4 1 2 0 20 false close_spikes_trace close_spikes_trace_read).
Defined.

(** C7, witness: channel 7 is requested of a recording with channels 0, 1. *)
Lemma unknown_channel_is_rejected_witness :
  (exists ch, ch ∈ [0; 7] /\ ch ∉ get_channel_ids two_channel_recording) /\
  example_detect two_channel_recording (Some [0; 7]) 5 2 1 (-1) 5 true None None 1 false
  = ([], Raise (AssertionError not_all_channels)).
Proof.
  assert (H : exists ch, ch ∈ [0; 7] /\ ch ∉ get_channel_ids two_channel_recording).
  { exists 7. split; [set_solver|]. simpl. intros Hin.
    apply elem_of_cons in Hin as [Hin|Hin]; [discriminate|].
    apply elem_of_cons in Hin as [Hin|Hin]; [discriminate|].
    inversion Hin. }
  split; [exact H|].
  exact (unknown_channel_is_rejected resample_pair RecordingExtractor
           (fun recording : RecordingExtractor => recording)
           (fun recording : RecordingExtractor => recording)
           sorted_unique two_channel_recording [0; 7] 5 2 1 (-1) 5 true None None 1 false H).
Defined.

(** C8, witness: two jobs are asked for on a recording that is not
    dumpable. *)
Lemma not_dumpable_falls_back_to_sequential_witness :
  check_if_dumpable two_channel_recording = false /\
  2 > 1 /\
  snd (example_detect two_channel_recording None 5 2 1 (-1) 5 false None None 2 false)
  = snd (example_detect two_channel_recording None 5 2 1 (-1) 5 false None None 1 false) /\
  fst (example_detect two_channel_recording None 5 2 1 (-1) 5 false None None 2 false)
  = Print not_dumpable
      :: fst (example_detect two_channel_recording None 5 2 1 (-1) 5 false None None 1 false).
Proof.
  split; [reflexivity|]. split; [lia|].
  destruct (not_dumpable_falls_back_to_sequential resample_pair RecordingExtractor
              (fun recording : RecordingExtractor => recording)
              (fun recording : RecordingExtractor => recording)
              sorted_unique two_channel_recording None 5 2 1 (-1) 5 false
              None None 2 false eq_refl ltac:(lia)) as [Hout Hlog].
  split; [exact Hout|]. apply Hlog. intros chs ch Hsome. discriminate Hsome.
Defined.

(** C10, witness: three crossings, two events. *)
Lemma events_are_fewer_than_crossings_witness :
  get_traces (one_channel_recording close_spikes_trace) 0 0 20
  = Ok (NdArray float64 close_spikes_trace) /\
  threshold_crossings float64 close_spikes_trace 5 (-1) = [5; 8; 15] /\
  snd (example_worker (RecObject (one_channel_recording close_spikes_trace))
         0 5 (-1) 4 1 2 true 0 20 false)
  = Ok ([5; 5], [(-100)%Q; (-100)%Q], [0; 0]) /\
  (length [5; 5] <= length [5; 8; 15] - 1)%nat.
Proof.
  split; [exact close_spikes_trace_read|].
  split; [vm_compute; reflexivity|].
  assert (Hrun : snd (example_worker (RecObject (one_channel_recording close_spikes_trace))
                        0 5 (-1) 4 1 2 true 0 20 false)
                 = Ok ([5; 5], [(-100)%Q; (-100)%Q], [0; 0]))
    by (vm_compute; reflexivity).
  split; [exact Hrun|].
  exact (proj1 (events_are_fewer_than_crossings resample_pair RecordingExtractor
                  (fun recording : RecordingExtractor => recording) float64
                  (RecObject (one_channel_recording close_spikes_trace))
                  0 5 (-1) 4 1 2 true 0 20 false close_spikes_trace
                  close_spikes_trace_read) _ _ _ Hrun).
Defined.

(** C4, witness: the unit ids are the distinct labels in ascending
    order. *)
Lemma amplitude_of_unit_comes_from_another_channel_witness :
  sorted_unique [1] = [1] /\
  match snd (example_detect two_channel_recording None 5 2 1 (-1) 5 false None None 1 false) with
  | Ok sorting =>
      get_unit_ids sorting = [1] /\
      get_unit_spike_train sorting 1 = [2] /\
      get_unit_property sorting 1 "spike_amplitude" = Some (PFloat None)
  | Raise _ => False
  end.
Proof.
  split; [reflexivity|].
  exact (proj2 (proj2 (amplitude_of_unit_comes_from_another_channel resample_pair
                         RecordingExtractor
                         (fun recording : RecordingExtractor => recording)
                         (fun recording : RecordingExtractor => recording)
                         sorted_unique eq_refl))).
Defined.

(** * Closed examples for the further properties *)

(** X1, witness. *)
Lemma worker_lists_have_one_length_witness :
  get_traces (one_channel_recording close_spikes_trace) 0 0 20
  = Ok (NdArray float64 close_spikes_trace) /\
  snd (example_worker (RecObject (one_channel_recording close_spikes_trace))
         0 5 (-1) 4 1 2 true 0 20 false)
  = Ok ([5; 5], [(-100)%Q; (-100)%Q], [0; 0]) /\
  length [(-100)%Q; (-100)%Q] = length [5; 5] /\
  [0; 0] = replicate (length [5; 5]) 0.
Proof.
  assert (Hrun : snd (example_worker (RecObject (one_channel_recording close_spikes_trace))
                        0 5 (-1) 4 1 2 true 0 20 false)
                 = Ok ([5; 5], [(-100)%Q; (-100)%Q], [0; 0]))
    by (vm_compute; reflexivity).
  split; [exact close_spikes_trace_read|]. split; [exact Hrun|].
  exact (worker_lists_have_one_length resample_pair RecordingExtractor
           (fun recording : RecordingExtractor => recording) float64
           (RecObject (one_channel_recording close_spikes_trace))
           0 5 (-1) 4 1 2 true 0 20 false close_spikes_trace _ _ _
           close_spikes_trace_read Hrun).
Defined.

(** X2, witness. *)
Lemma unaligned_events_are_crossing_samples_witness :
  get_traces (one_channel_recording pair_trace) 0 0 10
  = Ok (NdArray float64 pair_trace) /\
  snd (example_worker (RecObject (one_channel_recording pair_trace))
         0 5 (-1) 1 1 5 false 0 10 false)
  = Ok ([5], [(-50)%Q], [0]) /\
  Forall2 (fun t a =>
             t ∈ threshold_crossings float64 pair_trace 5 (-1) /\
             0 <= t /\ pair_trace !! Z.to_nat t = Some a)
    [5] [(-50)%Q].
Proof.
  assert (Hrun : snd (example_worker (RecObject (one_channel_recording pair_trace))
                        0 5 (-1) 1 1 5 false 0 10 false)
                 = Ok ([5], [(-50)%Q], [0]))
    by (vm_compute; reflexivity).
  split; [exact pair_trace_read|]. split; [exact Hrun|].
  exact (unaligned_events_are_crossing_samples resample_pair RecordingExtractor
           (fun recording : RecordingExtractor => recording) float64
           (RecObject (one_channel_recording pair_trace))
           0 5 (-1) 1 1 5 0 10 false pair_trace _ _ _ pair_trace_read Hrun).
Defined.

(** X3, witness: of the crossings 5 and 9 of [pair_trace], the loop visits
    5 only. *)
Lemma unaligned_times_are_the_selected_crossings_witness :
  get_traces (one_channel_recording pair_trace) 0 0 10
  = Ok (NdArray float64 pair_trace) /\
  exists times amplitudes labels,
    snd (example_worker (RecObject (one_channel_recording pair_trace))
           0 5 (-1) 1 1 5 false 0 10 false)
    = Ok (times, amplitudes, labels) /\
    forall t,
      t ∈ times <->
      exists i next,
        threshold_crossings float64 pair_trace 5 (-1) !! i = Some t /\
        threshold_crossings float64 pair_trace 5 (-1) !! S i = Some next /\
        (next - t > 5 \/ S (S i) = length (threshold_crossings float64 pair_trace 5 (-1))).
Proof.
  split; [exact pair_trace_read|].
  exact (unaligned_times_are_the_selected_crossings resample_pair RecordingExtractor
           (fun recording : RecordingExtractor => recording) float64
           (RecObject (one_channel_recording pair_trace))
           0 5 (-1) 1 1 5 0 10 false pair_trace pair_trace_read).
Defined.

(** X4, witness: the run of [edge_trace], whose anchor is at n_pad. *)
Lemma aligned_run_fails_only_unbound_witness :
  get_traces (one_channel_recording edge_trace) 0 0 10
  = Ok (NdArray float64 edge_trace) /\
  1 <= 1 /\ 1 <= 2 /\
  snd (example_worker (RecObject (one_channel_recording edge_trace))
         0 5 (-1) 2 1 5 true 0 10 false)
  = Raise (UnboundLocalError "spike") /\
  UnboundLocalError "spike" = UnboundLocalError "spike".
Proof.
  assert (Hrun : snd (example_worker (RecObject (one_channel_recording edge_trace))
                        0 5 (-1) 2 1 5 true 0 10 false)
                 = Raise (UnboundLocalError "spike"))
    by (vm_compute; reflexivity).
  split; [exact edge_trace_read|].
  split; [lia|]. split; [lia|]. split; [exact Hrun|].
  exact (aligned_run_fails_only_unbound resample_pair RecordingExtractor
           (fun recording : RecordingExtractor => recording) float64
           (RecObject (one_channel_recording edge_trace))
           0 5 (-1) 2 1 5 0 10 false edge_trace _ edge_trace_read
           ltac:(lia) ltac:(lia) Hrun).
Defined.

Lemma close_spikes_crossings_are_interior :
  forall idx,
    idx ∈ threshold_crossings float64 close_spikes_trace 5 (-1) ->
    4 < idx /\ idx + 4 < Z.of_nat (length close_spikes_trace).
Proof.
  change (threshold_crossings float64 close_spikes_trace 5 (-1)) with [5; 8; 15].
  intros idx Hin. simpl length.
  apply elem_of_cons in Hin as [->|Hin]; [lia|].
  apply elem_of_cons in Hin as [->|Hin]; [lia|].
  apply elem_of_cons in Hin as [->|Hin]; [lia|]. inversion Hin.
Defined.

(** X5, witness: the crossings 5, 8 and 15 of [close_spikes_trace] are
    more than 4 samples from both ends. *)
Lemma interior_events_sit_at_window_extrema_witness :
  get_traces (one_channel_recording close_spikes_trace) 0 0 20
  = Ok (NdArray float64 close_spikes_trace) /\
  1 <= 1 /\ 1 <= 4 /\
  (forall idx,
     idx ∈ threshold_crossings float64 close_spikes_trace 5 (-1) ->
     4 < idx /\ idx + 4 < Z.of_nat (length close_spikes_trace)) /\
  exists times amplitudes labels,
    snd (example_worker (RecObject (one_channel_recording close_spikes_trace))
           0 5 (-1) 4 1 2 true 0 20 false)
    = Ok (times, amplitudes, labels) /\
    Forall2 (fun t a =>
               exists idx,
                 idx ∈ threshold_crossings float64 close_spikes_trace 5 (-1) /\
                 extreme_in_range float64 (-1) close_spikes_trace (idx - 4) (idx + 4) t a)
      times amplitudes.
Proof.
  split; [exact close_spikes_trace_read|].
  split; [lia|]. split; [lia|]. split; [exact close_spikes_crossings_are_interior|].
  exact (interior_events_sit_at_window_extrema resample_pair RecordingExtractor
           (fun recording : RecordingExtractor => recording) float64
           (RecObject (one_channel_recording close_spikes_trace))
           0 5 (-1) 4 1 2 0 20 false close_spikes_trace close_spikes_trace_read
           ltac:(lia) ltac:(lia) close_spikes_crossings_are_interior).
Defined.

(** X16, witness: the same run. *)
Lemma aligned_times_stay_in_their_window_witness :
  get_traces (one_channel_recording close_spikes_trace) 0 0 20
  = Ok (NdArray float64 close_spikes_trace) /\
  1 <= 4 /\
  (forall idx,
     idx ∈ threshold_crossings float64 close_spikes_trace 5 (-1) ->
     4 < idx /\ idx + 4 < Z.of_nat (length close_spikes_trace)) /\
  snd (example_worker (RecObject (one_channel_recording close_spikes_trace))
         0 5 (-1) 4 1 2 true 0 20 false)
  = Ok ([5; 5], [(-100)%Q; (-100)%Q], [0; 0]) /\
  Forall (fun t => exists idx,
            idx ∈ threshold_crossings float64 close_spikes_trace 5 (-1) /\
            idx - 4 <= t < idx + 4)
    [5; 5].
Proof.
  assert (Hrun : snd (example_worker (RecObject (one_channel_recording close_spikes_trace))
                        0 5 (-1) 4 1 2 true 0 20 false)
                 = Ok ([5; 5], [(-100)%Q; (-100)%Q], [0; 0]))
    by (vm_compute; reflexivity).
  split; [exact close_spikes_trace_read|].
  split; [lia|]. split; [exact close_spikes_crossings_are_interior|].
  split; [exact Hrun|].
  exact (aligned_times_stay_in_their_window resample_pair RecordingExtractor
           (fun recording : RecordingExtractor => recording) float64
           (RecObject (one_channel_recording close_spikes_trace))
           0 5 (-1) 4 1 2 0 20 false close_spikes_trace _ _ _
           close_spikes_trace_read ltac:(lia)
           close_spikes_crossings_are_interior Hrun).
Defined.

(** X6, witness: [pair_trace] has two crossings. *)
Lemma zero_pad_aligned_run_raises_witness :
  get_traces (one_channel_recording pair_trace) 0 0 10
  = Ok (NdArray float64 pair_trace) /\
  1 <= 1 /\
  (2 <= length (threshold_crossings float64 pair_trace 5 (-1)))%nat /\
  exists err,
    snd (example_worker (RecObject (one_channel_recording pair_trace))
           0 5 (-1) 0 1 5 true 0 10 false)
    = Raise err /\
    (err = UnboundLocalError "spike" \/ exists msg, err = ValueError msg).
Proof.
  assert (Htwo : (2 <= length (threshold_crossings float64 pair_trace 5 (-1)))%nat)
    by (vm_compute; lia).
  split; [exact pair_trace_read|].
  split; [lia|]. split; [exact Htwo|].
  exact (zero_pad_aligned_run_raises resample_pair RecordingExtractor
           (fun recording : RecordingExtractor => recording) float64
           (RecObject (one_channel_recording pair_trace))
           0 5 (-1) 1 5 0 10 false pair_trace pair_trace_read ltac:(lia) Htwo).
Defined.

Lemma flat_samples_are_zero : Forall (fun x => (x == 0)%Q) (replicate 10 0%Q).
Proof. repeat constructor. Defined.

(** X7, witness: ten samples equal to zero. *)
Lemma flat_trace_has_no_event_witness :
  get_traces (one_channel_recording (replicate 10 0%Q)) 0 0 10
  = Ok (NdArray float64 (replicate 10 0%Q)) /\
  Forall (fun x => (x == 0)%Q) (replicate 10 0%Q) /\
  snd (example_worker (RecObject (one_channel_recording (replicate 10 0%Q)))
         0 5 0 2 1 5 true 0 10 false)
  = Ok ([], [], []).
Proof.
  assert (Hread : get_traces (one_channel_recording (replicate 10 0%Q)) 0 0 10
                  = Ok (NdArray float64 (replicate 10 0%Q)))
    by reflexivity.
  split; [exact Hread|]. split; [exact flat_samples_are_zero|].
  exact (flat_trace_has_no_event resample_pair RecordingExtractor
           (fun recording : RecordingExtractor => recording) float64
           (RecObject (one_channel_recording (replicate 10 0%Q)))
           0 5 0 2 1 5 true 0 10 false (replicate 10 0%Q) Hread flat_samples_are_zero).
Defined.

(** An int16 recording of [pair_trace], none of whose samples is the
    least value -32768 of the type. *)
Lemma pair_trace_holds_no_minimum : holds_no_minimum int16 pair_trace.
Proof.
  unfold holds_no_minimum, int16, pair_trace.
  repeat (constructor; [intros Heq; vm_compute in Heq; discriminate Heq|]).
  constructor.
Defined.

(** X8, witness: an int16 trace that does not hold -32768. *)
Lemma unaligned_amplitudes_have_the_detected_sign_witness :
  get_traces (recording_of_traces 1000 [0] int16 (fun _ => pair_trace) false) 0 0 10
  = Ok (NdArray int16 pair_trace) /\
  holds_no_minimum int16 pair_trace /\
  (0 <= 5)%Q /\
  snd (example_worker (RecObject (recording_of_traces 1000 [0] int16
                                    (fun _ => pair_trace) false))
         0 5 (-1) 1 1 5 false 0 10 false)
  = Ok ([5], [(-50)%Q], [0]) /\
  Forall (fun a => (a < 0)%Q) [(-50)%Q].
Proof.
  assert (Hread : get_traces (recording_of_traces 1000 [0] int16
                                (fun _ => pair_trace) false) 0 0 10
                  = Ok (NdArray int16 pair_trace))
    by reflexivity.
  assert (Hstd : (0 <= 5)%Q) by (vm_compute; discriminate).
  assert (Hrun : snd (example_worker (RecObject (recording_of_traces 1000 [0] int16
                                                   (fun _ => pair_trace) false))
                        0 5 (-1) 1 1 5 false 0 10 false)
                 = Ok ([5], [(-50)%Q], [0]))
    by (vm_compute; reflexivity).
  split; [exact Hread|]. split; [exact pair_trace_holds_no_minimum|].
  split; [exact Hstd|]. split; [exact Hrun|].
  exact (unaligned_amplitudes_have_the_detected_sign resample_pair RecordingExtractor
           (fun recording : RecordingExtractor => recording) int16
           (RecObject (recording_of_traces 1000 [0] int16 (fun _ => pair_trace) false))
           0 5 (-1) 1 1 5 0 10 false pair_trace _ _ _ Hread
           pair_trace_holds_no_minimum Hstd Hrun).
Defined.

(** On an int16 trace that holds the least value of the type, [np.abs]
    leaves it negative: the noise scale of [saturated_trace] is negative,
    the threshold of a run that detects negative spikes is positive, and
    the run returns the positive sample 100 among its amplitudes; the
    search for the largest [np.abs] in the window [0; 0; -32768; 0] stops at
    its first sample. *)
Lemma int16_minimum_is_its_own_abs :
  Np.abs int16 saturated_trace = saturated_trace /\
  (exists m, noise_scale int16 saturated_trace = Some m /\ (m < 0)%Q) /\
  snd (example_worker (RecObject (recording_of_traces 1000 [0] int16
                                    (fun _ => saturated_trace) false))
         0 5 (-1) 1 1 0 false 0 5 false)
  = Ok ([0; 1; 2; 3], [-32768; -32768; -32768; 100]%Q, [0; 0; 0; 0]) /\
  find_peak int16 0 [0; 0; -32768; 0]%Q = Ok (O, 0%Q).
Proof.
  split; [reflexivity|]. split.
  - eexists. split; [vm_compute; reflexivity|]. vm_compute. reflexivity.
  - split; vm_compute; reflexivity.
Qed.

(** X15, witness: the interior window of the anchor 5 of [pair_trace]. *)
Lemma assigned_window_width_witness :
  0 <= 1 /\ 0 <= 5 < Z.of_nat (length pair_trace) /\
  window_at pair_trace 1 5 = (Some [0; -50]%Q, Some [4; 5]) /\
  length [4; 5] = Z.to_nat (2 * 1) /\
  length [0; -50]%Q = Z.to_nat (2 * 1).
Proof.
  assert (Hidx : 0 <= 5 < Z.of_nat (length pair_trace)) by (simpl; lia).
  split; [lia|]. split; [exact Hidx|]. split; [reflexivity|].
  exact (assigned_window_width pair_trace 1 5 [0; -50]%Q [4; 5] ltac:(lia) Hidx eq_refl).
Defined.

(** The run of [detect_spikes] used by the witnesses below returns a
    sorting whose only unit is 1. *)
Lemma two_channel_run_units sorting :
  snd (example_detect two_channel_recording None 5 2 1 (-1) 5 false None None 1 false)
  = Ok sorting ->
  get_unit_ids sorting = [1].
Proof.
  intros Hrun.
  pose proof (f_equal (fun r => match r with
                                | Ok s => get_unit_ids s
                                | Raise _ => []
                                end) Hrun) as Hids.
  vm_compute in Hids. symmetry. exact Hids.
Defined.

Lemma two_channel_run_returns :
  exists sorting,
    snd (example_detect two_channel_recording None 5 2 1 (-1) 5 false None None 1 false)
    = Ok sorting.
Proof.
  destruct (snd (example_detect two_channel_recording None 5 2 1 (-1) 5 false
                   None None 1 false)) as [sorting|err] eqn:Hrun.
  - exists sorting. reflexivity.
  - exfalso. vm_compute in Hrun. discriminate Hrun.
Defined.

(** X9, witness. *)
Lemma units_carry_channel_and_rate_witness :
  exists sorting,
    snd (example_detect two_channel_recording None 5 2 1 (-1) 5 false None None 1 false)
    = Ok sorting /\
    1 ∈ get_unit_ids sorting /\
    get_unit_property sorting 1 "channel" = Some (PInt 1) /\
    get_unit_property sorting 1 "spike_rate"
    = Some (PFloat (Some (inject_Z (Z.of_nat (length (get_unit_spike_train sorting 1)))
                          / (inject_Z (10 - 0) / 1000))%Q)).
Proof.
  destruct two_channel_run_returns as [sorting Hrun]. exists sorting.
  assert (Hu : 1 ∈ get_unit_ids sorting)
    by (rewrite (two_channel_run_units sorting Hrun); left).
  split; [exact Hrun|]. split; [exact Hu|].
  exact (units_carry_channel_and_rate resample_pair RecordingExtractor
           (fun recording : RecordingExtractor => recording)
           (fun recording : RecordingExtractor => recording)
           sorted_unique two_channel_recording None 5 2 1 (-1) 5 false None None 1 false
           sorting 1 Hrun Hu).
Defined.

(** X10, witness: the unit at position 0 is unit 1, the channel at
    position 0 is channel 0, whose worker returns no amplitude. *)
Lemma amplitude_is_paired_by_position_witness :
  exists sorting,
    snd (example_detect two_channel_recording None 5 2 1 (-1) 5 false None None 1 false)
    = Ok sorting /\
    NoDup (get_unit_ids sorting) /\
    get_unit_ids sorting !! O = Some 1 /\
    exists ch dt trace times amplitudes labels,
      get_channel_ids two_channel_recording !! O = Some ch /\
      get_traces two_channel_recording ch 0 10 = Ok (NdArray dt trace) /\
      detect_on_trace resample_pair dt trace ch 5 (-1) 2 1 5 false
      = Ok (times, amplitudes, labels) /\
      get_unit_property sorting 1 "spike_amplitude" = Some (PFloat (Np.median amplitudes)).
Proof.
  destruct two_channel_run_returns as [sorting Hrun]. exists sorting.
  pose proof (two_channel_run_units sorting Hrun) as Hids.
  assert (Hnodup : NoDup (get_unit_ids sorting))
    by (rewrite Hids; apply NoDup_singleton).
  assert (Hk : get_unit_ids sorting !! O = Some 1) by (rewrite Hids; reflexivity).
  split; [exact Hrun|]. split; [exact Hnodup|]. split; [exact Hk|].
  exact (amplitude_is_paired_by_position resample_pair RecordingExtractor
           (fun recording : RecordingExtractor => recording)
           (fun recording : RecordingExtractor => recording)
           sorted_unique two_channel_recording None 5 2 1 (-1) 5 false None None 1 false
           sorting O 1 Hrun Hnodup Hk).
Defined.

(** X11, witness. *)
Lemma unit_train_is_the_channel_output_witness :
  exists sorting,
    snd (example_detect two_channel_recording None 5 2 1 (-1) 5 false None None 1 false)
    = Ok sorting /\
    NoDup (get_channel_ids two_channel_recording) /\
    1 ∈ get_channel_ids two_channel_recording /\
    1 ∈ get_unit_ids sorting /\
    exists dt trace times amplitudes labels,
      get_traces two_channel_recording 1 0 10 = Ok (NdArray dt trace) /\
      detect_on_trace resample_pair dt trace 1 5 (-1) 2 1 5 false
      = Ok (times, amplitudes, labels) /\
      get_unit_spike_train sorting 1 = times.
Proof.
  destruct two_channel_run_returns as [sorting Hrun]. exists sorting.
  assert (Hu : 1 ∈ get_unit_ids sorting)
    by (rewrite (two_channel_run_units sorting Hrun); left).
  assert (Hnodup : NoDup (get_channel_ids two_channel_recording)).
  { apply NoDup_cons. split; [|apply NoDup_singleton].
    intros Hin. apply list_elem_of_singleton in Hin. discriminate Hin. }
  assert (Hch : 1 ∈ get_channel_ids two_channel_recording) by (right; left).
  split; [exact Hrun|]. split; [exact Hnodup|]. split; [exact Hch|]. split; [exact Hu|].
  exact (unit_train_is_the_channel_output resample_pair RecordingExtractor
           (fun recording : RecordingExtractor => recording)
           (fun recording : RecordingExtractor => recording)
           sorted_unique two_channel_recording None 5 2 1 (-1) 5 false None None 1 false
           sorting 1 Hrun Hnodup Hch Hu).
Defined.

(** X13, witness. *)
Lemma log_of_a_successful_run_witness :
  check_if_dumpable two_channel_recording && (2 >? 1) = false /\
  exists sorting,
    snd (example_detect two_channel_recording None 5 2 1 (-1) 5 false None None 2 true)
    = Ok sorting /\
    fst (example_detect two_channel_recording None 5 2 1 (-1) 5 false None None 2 true)
    = [Print not_dumpable;
       Print "Detecting spikes on channel 0"; GetTraces 0 0 10;
       Print "Detecting spikes on channel 1"; GetTraces 1 0 10].
Proof.
  split; [reflexivity|].
  destruct (snd (example_detect two_channel_recording None 5 2 1 (-1) 5 false
                   None None 2 true)) as [sorting|err] eqn:Hrun;
    [|exfalso; vm_compute in Hrun; discriminate Hrun].
  exists sorting. split; [reflexivity|].
  exact (log_of_a_successful_run resample_pair RecordingExtractor
           (fun recording : RecordingExtractor => recording)
           (fun recording : RecordingExtractor => recording)
           sorted_unique two_channel_recording None 5 2 1 (-1) 5 false None None 2 true
           sorting eq_refl Hrun).
Defined.

(** The distinct labels in ascending order are the labels. *)
Lemma elem_of_sorted_unique (labels : list Z) (v : Z) :
  v ∈ sorted_unique labels <-> v ∈ labels.
Proof.
  unfold sorted_unique. rewrite merge_sort_Permutation. apply elem_of_remove_dups.
Defined.

(** X14, witness: unit 1 is the one channel with an event. *)
Lemma units_are_the_channels_with_events_witness :
  (forall labels v, v ∈ sorted_unique labels <-> v ∈ labels) /\
  exists sorting,
    snd (example_detect two_channel_recording None 5 2 1 (-1) 5 false None None 1 false)
    = Ok sorting /\
    (1 ∈ get_unit_ids sorting <->
     1 ∈ get_channel_ids two_channel_recording /\
     exists dt trace times amplitudes labels,
       get_traces two_channel_recording 1 0 10 = Ok (NdArray dt trace) /\
       detect_on_trace resample_pair dt trace 1 5 (-1) 2 1 5 false
       = Ok (times, amplitudes, labels) /\
       times <> []).
Proof.
  split; [exact elem_of_sorted_unique|].
  destruct two_channel_run_returns as [sorting Hrun]. exists sorting.
  split; [exact Hrun|].
  exact (units_are_the_channels_with_events resample_pair RecordingExtractor
           (fun recording : RecordingExtractor => recording)
           (fun recording : RecordingExtractor => recording)
           sorted_unique two_channel_recording None 5 2 1 (-1) 5 false None None 1 false
           sorting 1 elem_of_sorted_unique Hrun).
Defined.

(** X12, witness: two jobs on a dumpable recording that is its own
    serialized form. *)
Lemma sorting_does_not_depend_on_n_jobs_witness :
  (forall ch s e,
     get_traces ((fun recording : RecordingExtractor => recording)
                   ((fun recording : RecordingExtractor => recording) dumpable_recording))
       ch s e
     = get_traces dumpable_recording ch s e) /\
  exists sorting,
    snd (example_detect dumpable_recording None 5 2 1 (-1) 5 false None None 1 false)
    = Ok sorting /\
    snd (example_detect dumpable_recording None 5 2 1 (-1) 5 false None None 2 false)
    = Ok sorting.
Proof.
  assert (Hround : forall ch s e,
             get_traces ((fun recording : RecordingExtractor => recording)
                           ((fun recording : RecordingExtractor => recording)
                              dumpable_recording)) ch s e
             = get_traces dumpable_recording ch s e)
    by (intros ch s e; reflexivity).
  split; [exact Hround|].
  destruct (snd (example_detect dumpable_recording None 5 2 1 (-1) 5 false
                   None None 1 false)) as [sorting|err] eqn:Hrun;
    [|exfalso; vm_compute in Hrun; discriminate Hrun].
  exists sorting. split; [reflexivity|].
  exact (sorting_does_not_depend_on_n_jobs resample_pair RecordingExtractor
           (fun recording : RecordingExtractor => recording)
           (fun recording : RecordingExtractor => recording)
           sorted_unique dumpable_recording None 5 2 1 (-1) 5 false None None 2 false
           sorting Hround Hrun).
Defined.
